(** * The Google Analytics template tag of django-analytical

    A shallow embedding of [analytical/templatetags/google_analytics.py]:
    the tag node [GoogleAnalyticsNode], its constructor and its [render]
    method with the four command builders, followed by the properties the
    specification states about them.

    Python values are embedded as follows.
    - scalars ([None], booleans, integers, byte strings) are [pyval]; floats
      and unicode strings are left out;
    - a [dict] with string keys is a [gmap string pyval];
    - a tuple is a [list pyval];
    - the Django settings object is a [gmap] from setting names to scalars,
      read with [getattr];
    - the template context is the record [Context], holding the keys the
      tag reads with the type the tag expects of each;
    - a call either returns or raises: [result]. *)

From Stdlib Require Import ZArith Ascii String Bool Lia.
From stdpp Require Import gmap strings list pretty.

Open Scope Z_scope.

(** String concatenation computes by [simpl] on a literal left operand. *)
#[local] Arguments String.append !_ _ / : assert.

(** ** Python scalars *)

Inductive pyval :=
| PyNone
| PyBool (b : bool)
| PyInt (n : Z)
| PyStr (s : string).

Abbreviation pydict := (gmap string pyval).

(** [str(v)], what the conversion [%s] applies to its argument. *)
Definition py_str (v : pyval) : string :=
  match v with
  | PyNone => "None"
  | PyBool true => "True"
  | PyBool false => "False"
  | PyInt n => pretty n
  | PyStr s => s
  end.

(** Truth value of a scalar, as [if v:] tests it. *)
Definition py_truth (v : pyval) : bool :=
  match v with
  | PyNone => false
  | PyBool b => b
  | PyInt n => negb (n =? 0)
  | PyStr s => negb (String.eqb s "")
  end.

(** Truth value of a dict: false exactly for the empty dict. *)
Definition dict_truth (d : pydict) : bool := negb (bool_decide (d = ∅)).

(** Numeric value of a scalar; [bool] is a subclass of [int]. *)
Definition py_num (v : pyval) : option Z :=
  match v with
  | PyBool b => Some (if b then 1 else 0)
  | PyInt n => Some n
  | _ => None
  end.

(** [a == b] on scalars. *)
Definition py_eq (a b : pyval) : bool :=
  match a, b with
  | PyNone, PyNone => true
  | PyStr s, PyStr t => String.eqb s t
  | _, _ =>
      match py_num a, py_num b with
      | Some x, Some y => x =? y
      | _, _ => false
      end
  end.

(** [key in d] *)
Definition py_in (key : string) (d : pydict) : bool :=
  match d !! key with Some _ => true | None => false end.

(** [dict(defaults, **d)]: the entries of [d] override the defaults. *)
Definition dict_update (defaults d : pydict) : pydict := d ∪ defaults.

(** ** Exceptions and results *)

Inductive exn :=
| AnalyticalException (msg : string)
| IndexError
| KeyError (key : string).

Inductive result (A : Type) :=
| Ok (a : A)
| Raise (e : exn).
Arguments Ok {A} a.
Arguments Raise {A} e.

#[global] Instance result_ret : MRet result := fun A a => Ok a.
#[global] Instance result_bind : MBind result := fun A B k r =>
  match r with
  | Ok a => k a
  | Raise e => Raise e
  end.

(** The spec's ConfigurationError is the code's [AnalyticalException]. *)
Definition is_ConfigurationError (e : exn) : bool :=
  match e with AnalyticalException _ => true | _ => false end.

(** [try: body  except IndexError: handler] *)
Definition except_IndexError {A} (body handler : result A) : result A :=
  match body with
  | Raise IndexError => handler
  | r => r
  end.

(** [xs[i]] on a tuple. *)
Definition py_getitem (xs : list pyval) (i : nat) : result pyval :=
  match xs !! i with
  | Some v => Ok v
  | None => Raise IndexError
  end.

(** [range(a, b)] *)
Definition range (a b : Z) : list Z :=
  map (fun k => a + Z.of_nat k) (seq 0 (Z.to_nat (b - a))).

(** ** String formatting

    A format string is kept as its literal pieces and its [%(key)s]
    conversions, in order.  [fmt % d] looks every key up in [d] (a missing
    key is a [KeyError]) and inserts [str] of the value. *)

Inductive seg :=
| Lit (s : string)
| Key (k : string).

Fixpoint format (fmt : list seg) (d : pydict) : result string :=
  match fmt with
  | [] => Ok ""
  | Lit s :: fmt' => rest ← format fmt' d; Ok (s +:+ rest)
  | Key k :: fmt' =>
      match d !! k with
      | Some v => rest ← format fmt' d; Ok (py_str v +:+ rest)
      | None => Raise (KeyError k)
      end
  end.

(** [" ".join(commands)] is [String.concat " " commands]. *)
Definition join (sep : string) (l : list string) : string := String.concat sep l.

(** ** Regular expressions

    The fragment of Python's [re] that [PROPERTY_ID_RE] uses, on byte
    strings and without flags: [^] matches at the start of the string only;
    [$] matches at the end of the string and just before a newline that is
    the last character of the string; [\d] is [[0-9]]; [x+] is one or more
    [x]. *)

Inductive charclass :=
| ReChar (c : ascii)
| ReDigit.

Inductive re_item :=
| ReBol
| ReEol
| ReOne (c : charclass)
| RePlus (c : charclass).

Definition regex := list re_item.

Definition is_digit (c : ascii) : bool :=
  (48 <=? nat_of_ascii c)%nat && (nat_of_ascii c <=? 57)%nat.

Definition accepts (cl : charclass) (c : ascii) : bool :=
  match cl with
  | ReChar c' => Ascii.eqb c' c
  | ReDigit => is_digit c
  end.

Definition newline : ascii := "010"%char.

(** Is the rest [s] of the subject a place where [$] matches? *)
Definition at_eol (s : string) : bool :=
  match s with
  | EmptyString => true
  | String c EmptyString => Ascii.eqb c newline
  | _ => false
  end.

(** [x+] followed by the rest of the expression [k]: one [x], then either
    more of them (tried first, the operator is greedy) or the rest. *)
Fixpoint match_plus (cl : charclass) (k : string -> bool) (s : string) : bool :=
  match s with
  | String c s' => accepts cl c && (match_plus cl k s' || k s')
  | EmptyString => false
  end.

(** Does [r] match a prefix of [s]?  [bos] tells whether [s] is the whole
    subject (the position is its start). *)
Fixpoint match_here (r : regex) (bos : bool) (s : string) {struct r} : bool :=
  match r with
  | [] => true
  | ReBol :: r' => bos && match_here r' bos s
  | ReEol :: r' => at_eol s && match_here r' bos s
  | ReOne cl :: r' =>
      match s with
      | String c s' => accepts cl c && match_here r' false s'
      | EmptyString => false
      end
  | RePlus cl :: r' => match_plus cl (match_here r' false) s
  end.

(** [r.search(s)]: a match at some position of [s]. *)
Fixpoint search_from (r : regex) (bos : bool) (s : string) : bool :=
  match_here r bos s ||
  match s with
  | String _ s' => search_from r false s'
  | EmptyString => false
  end.

Definition re_search (r : regex) (s : string) : bool := search_from r true s.

(** ** Module constants *)

Definition TRACK_SINGLE_DOMAIN : Z := 1.
Definition TRACK_MULTIPLE_SUBDOMAINS : Z := 2.
Definition TRACK_MULTIPLE_DOMAINS : Z := 3.

Definition SCOPE_VISITOR : Z := 1.
Definition SCOPE_SESSION : Z := 2.
Definition SCOPE_PAGE : Z := 3.

(** [re.compile(r'^UA-\d+-\d+$')] *)
Definition PROPERTY_ID_RE : regex :=
  [ReBol; ReOne (ReChar "U"); ReOne (ReChar "A"); ReOne (ReChar "-");
   RePlus ReDigit; ReOne (ReChar "-"); RePlus ReDigit; ReEol].

(** The double quote character, which [SETUP_CODE] contains. *)
Definition DQ : string := String "034"%char EmptyString.

Definition SETUP_CODE : list seg :=
  [Lit "
    <script type="; Lit DQ; Lit "text/javascript"; Lit DQ; Lit ">

      var _gaq = _gaq || [];
      _gaq.push(['_setAccount', '"; Key "property_id"; Lit "']);
      _gaq.push(['_trackPageview']);
      "; Key "commands"; Lit "
      (function() {
        var ga = document.createElement('script'); ga.type = 'text/javascript'; ga.async = true;
        ga.src = ('https:' == document.location.protocol ? "; Key "source_scheme";
   Lit ") + "; Key "source_url"; Lit ";
        var s = document.getElementsByTagName('script')[0]; s.parentNode.insertBefore(ga, s);
      })();

    </script>
"].

(** [DOMAIN_CODE % domain], one positional [%s]. *)
Definition DOMAIN_CODE (domain : string) : string :=
  "_gaq.push(['_setDomainName', '" +:+ domain +:+ "']);".
Definition NO_ALLOW_HASH_CODE : string := "_gaq.push(['_setAllowHash', false]);".
Definition ALLOW_LINKER_CODE : string := "_gaq.push(['_setAllowLinker', true]);".
Definition CUSTOM_VAR_CODE : list seg :=
  [Lit "_gaq.push(['_setCustomVar', "; Key "index"; Lit ", '"; Key "name";
   Lit "', '"; Key "value"; Lit "', "; Key "scope"; Lit "]);"].
Definition SITE_SPEED_CODE : string := "_gaq.push(['_trackPageLoadTime']);".
Definition ANONYMIZE_IP_CODE : string := "_gaq.push (['_gat._anonymizeIp']);".
Definition TRANSACTION_CODE : list seg :=
  [Lit "_gaq.push(['_addTrans', '"; Key "transactionId"; Lit "', '";
   Key "affiliation"; Lit "', '"; Key "total"; Lit "', '"; Key "tax";
   Lit "', '"; Key "shipping"; Lit "', '"; Key "city"; Lit "', '";
   Key "state"; Lit "', '"; Key "country"; Lit "']);"].
Definition ITEM_CODE : list seg :=
  [Lit "_gaq.push(['_addItem', '"; Key "transactionId"; Lit "', '";
   Key "sku"; Lit "', '"; Key "name"; Lit "', '"; Key "category";
   Lit "', '"; Key "price"; Lit "', '"; Key "quantity"; Lit "']);"].
Definition SET_CODE : list seg :=
  [Lit "_gaq.push(['_set', '"; Key "key"; Lit "', '"; Key "value"; Lit "']);"].
Definition TRACK_TRANSACTION_CODE : string := "_gaq.push(['_trackTrans']);".
Definition DEFAULT_SOURCE : string * string :=
  ("'https://ssl' : 'http://www'", "'.google-analytics.com/ga.js'").
Definition DISPLAY_ADVERTISING_SOURCE : string * string :=
  ("'https://' : 'http://'", "'stats.g.doubleclick.net/dc.js'").

(** ** Settings and template context *)

(** [django.conf.settings]: attribute names to values. *)
Abbreviation Settings := (gmap string pyval).

(** [getattr(settings, name, default)] *)
Definition getattr (settings : Settings) (name : string) (dflt : pyval) : pyval :=
  default dflt (settings !! name).

(** The template context, by the keys the tag reads.  [context.get(key)]
    is the field of that key: [None] stands for a key that is unbound or
    bound to [None], which [get] without a default does not tell apart.
    - ['google_analytics_var%s' % i] holds a tuple;
    - ['google_analytics_transaction'] holds a dict;
    - ['google_analytics_items'] holds a list of dicts;
    - ['google_analytics_currency_code'] holds a scalar. *)
Record Context := {
  google_analytics_var : Z -> option (list pyval);
  google_analytics_transaction : option pydict;
  google_analytics_items : option (list pydict);
  google_analytics_currency_code : option pyval
}.

(** ** What the tag imports from [analytical.utils] *)

(** Modelled from the spec: [analytical.utils.get_required_setting] is not
    among the sources.  The spec (4.1, Construct) has the property id
    validated against its format, failing with a ConfigurationError when the
    setting is missing or malformed; the format is the compiled pattern the
    caller passes, applied to the text of the value with [search]. *)
Definition get_required_setting (settings : Settings) (setting : string)
    (value_re : regex) (invalid_msg : string) : result string :=
  match settings !! setting with
  | None => Raise (AnalyticalException (setting +:+ " setting: not found"))
  | Some value =>
      let value := py_str value in
      if re_search value_re value then Ok value
      else Raise (AnalyticalException (setting +:+ " setting: " +:+ invalid_msg))
  end.

(** Modelled from the spec: [analytical.utils.disable_html] is not among the
    sources.  The spec (4.1 step 6, and section 8) has the whole output
    wrapped in a comment, a disabled notice; the tests of the tag fix how the
    result starts (["<!-- Google Analytics disabled on internal IP address"])
    and ends (["-->"]). *)
Definition disable_html (html service : string) : string :=
  "<!-- " +:+ service +:+ " disabled on internal IP address
" +:+ html +:+ "
-->".

(** The copy of the [enumerate] builtin the module defines. *)
Fixpoint enumerate {A} (sequence : list A) (start : Z) : list (Z * A) :=
  match sequence with
  | [] => []
  | elem :: sequence' => (start, elem) :: enumerate sequence' (start + 1)
  end.

(** ** The node *)

Module GoogleAnalyticsNode.

Record node := { property_id : string }.

Definition __init__ (settings : Settings) : result node :=
  property_id ← get_required_setting settings
    "GOOGLE_ANALYTICS_PROPERTY_ID" PROPERTY_ID_RE
    "must be a string looking like 'UA-XXXXXX-Y'";
  Ok {| property_id := property_id |}.

Section Methods.

(** [analytical.utils.get_domain] and [analytical.utils.is_internal_ip] are
    not among the sources; they read the request and settings and context
    keys the tag itself never touches.  The methods are defined for whatever
    these two compute: the domain name or [None], and the internal-IP flag. *)
Variable get_domain : Settings -> Context -> string -> option string.
Variable is_internal_ip : Settings -> Context -> string -> bool.

Definition _get_domain_commands (settings : Settings) (context : Context)
    : result (list string) :=
  let commands := [] in
  let tracking_type :=
    getattr settings "GOOGLE_ANALYTICS_TRACKING_STYLE" (PyInt TRACK_SINGLE_DOMAIN) in
  if py_eq tracking_type (PyInt TRACK_SINGLE_DOMAIN) then Ok commands
  else
    match get_domain settings context "google_analytics" with
    | None =>
        Raise (AnalyticalException
          "tracking multiple domains with Google Analytics requires a domain name")
    | Some domain =>
        let commands := commands ++ [DOMAIN_CODE domain] in
        let commands := commands ++ [NO_ALLOW_HASH_CODE] in
        let commands :=
          if py_eq tracking_type (PyInt TRACK_MULTIPLE_DOMAINS)
          then commands ++ [ALLOW_LINKER_CODE] else commands in
        Ok commands
    end.

(** The body of the loop over [vars]: the command of one slot.  Of
    [locals()] the dict holds the four names [CUSTOM_VAR_CODE] refers to. *)
Definition custom_var_command (index : Z) (var : list pyval) : result string :=
  name ← py_getitem var 0;
  value ← py_getitem var 1;
  scope ← except_IndexError (py_getitem var 2) (Ok (PyInt SCOPE_PAGE));
  format CUSTOM_VAR_CODE
    {[ "index" := PyInt index; "name" := name; "value" := value;
       "scope" := scope ]}.

Definition _get_custom_var_commands (context : Context) : result (list string) :=
  let values := map (fun i => google_analytics_var context i) (range 1 6) in
  let vars :=
    omap (fun iv : Z * option (list pyval) =>
            match iv.2 with Some v => Some (iv.1, v) | None => None end)
         (enumerate values 1) in
  mapM (fun iv : Z * list pyval => custom_var_command iv.1 iv.2) vars.

(** The inner loop over the required keys of an item. *)
Definition check_item (item : pydict) : result unit :=
  _ ← mapM (fun required : string =>
              if negb (py_in required item)
              then Raise (AnalyticalException
                            ("item requires " +:+ required +:+ " variable"))
              else Ok tt)
           ["sku"; "name"; "price"; "quantity"];
  Ok tt.

(** The body of the loop over [items]: the command of one item. *)
Definition item_command (item : pydict) : result string :=
  _ ← check_item item;
  let item :=
    dict_update {[ "transactionId" := PyStr ""; "category" := PyStr "" ]} item in
  format ITEM_CODE item.

Definition _get_transaction_commands (settings : Settings) (context : Context)
    : result (list string) :=
  let commands := [] in
  match google_analytics_transaction context with
  | None => Ok commands
  | Some transaction =>
      if negb (dict_truth transaction) then Ok commands
      else if negb (py_in "transactionId" transaction)
              || negb (py_in "total" transaction)
      then Raise (AnalyticalException
                    "transaction tracking requires a total and a transactionId")
      else
        let transaction :=
          dict_update
            {[ "affiliation" := PyStr ""; "tax" := PyStr "";
               "shipping" := PyStr ""; "city" := PyStr "";
               "state" := PyStr ""; "country" := PyStr "" ]}
            transaction in
        c ← format TRANSACTION_CODE transaction;
        let commands := commands ++ [c] in
        let items := default [] (google_analytics_items context) in
        cs ← mapM item_command items;
        let commands := commands ++ cs in
        let default_local_currency :=
          getattr settings "GOOGLE_ANALYTICS_ECOMMERCE_CURRENCY_CODE" PyNone in
        let local_currency :=
          default default_local_currency (google_analytics_currency_code context) in
        commands ←
          (if py_truth local_currency
           then
             c ← format SET_CODE
                   {[ "key" := PyStr "currencyCode"; "value" := local_currency ]};
             Ok (commands ++ [c])
           else Ok commands);
        Ok (commands ++ [TRACK_TRANSACTION_CODE])
  end.

(** This step raises nothing: its result is the list itself. *)
Definition _get_other_commands (settings : Settings) (context : Context)
    : list string :=
  let commands := [] in
  let commands :=
    if py_truth (getattr settings "GOOGLE_ANALYTICS_SITE_SPEED" (PyBool false))
    then commands ++ [SITE_SPEED_CODE] else commands in
  let commands :=
    if py_truth (getattr settings "GOOGLE_ANALYTICS_ANONYMIZE_IP" (PyBool false))
    then commands ++ [ANONYMIZE_IP_CODE] else commands in
  commands.

Definition render (self : node) (settings : Settings) (context : Context)
    : result string :=
  commands ← _get_domain_commands settings context;
  cs ← _get_custom_var_commands context;
  let commands := commands ++ cs in
  let commands := commands ++ _get_other_commands settings context in
  cs ← _get_transaction_commands settings context;
  let commands := commands ++ cs in
  let source :=
    if py_truth (getattr settings "GOOGLE_ANALYTICS_DISPLAY_ADVERTISING" (PyBool false))
    then DISPLAY_ADVERTISING_SOURCE else DEFAULT_SOURCE in
  html ← format SETUP_CODE
           {[ "property_id" := PyStr (property_id self);
              "commands" := PyStr (join " " commands);
              "source_scheme" := PyStr source.1;
              "source_url" := PyStr source.2 ]};
  let html :=
    if is_internal_ip settings context "GOOGLE_ANALYTICS"
    then disable_html html "Google Analytics" else html in
  Ok html.

End Methods.

End GoogleAnalyticsNode.

(** ** The tag function and the registration hook *)

(** What the tag function raises: Django's [TemplateSyntaxError], or what
    constructing the node raises. *)
Inductive tag_exn :=
| TemplateSyntaxError (msg : string)
| NodeError (e : exn).

Inductive tag_result :=
| TagOk (n : GoogleAnalyticsNode.node)
| TagRaise (e : tag_exn).

(** [google_analytics(parser, token)], on the [bits] that
    [token.split_contents()] gives: the name of the tag, then its arguments.
    The parser is not used. *)
Definition google_analytics (settings : Settings) (bits : list string)
    : tag_result :=
  if (1 <? length bits)%nat
  then
    match bits !! 0%nat with
    | Some name =>
        TagRaise (TemplateSyntaxError ("'" +:+ name +:+ "' takes no arguments"))
    | None => TagRaise (NodeError IndexError)
    end
  else
    match GoogleAnalyticsNode.__init__ settings with
    | Ok n => TagOk n
    | Raise e => TagRaise (NodeError e)
    end.

(** [contribute_to_analytical(add_node)]: a node is constructed and dropped,
    then the class is handed to [add_node] for the position ['head_bottom'].
    The class is passed as its constructor; what [add_node] does to the
    caller's registry is the function [add_node] on registries. *)
Definition contribute_to_analytical {R : Type} (settings : Settings)
    (add_node : string → (Settings → result GoogleAnalyticsNode.node) → R → R)
    (registry : R) : result R :=
  _ ← GoogleAnalyticsNode.__init__ settings;
  Ok (add_node "head_bottom" GoogleAnalyticsNode.__init__ registry).

(** * Vocabulary of the statements *)

Import GoogleAnalyticsNode.

(** The spec's PropertyId, in its words: [UA-<digits>-<digits>]. *)
Fixpoint all_digits (s : string) : bool :=
  match s with
  | EmptyString => true
  | String c s' => is_digit c && all_digits s'
  end.

Definition digits (s : string) : Prop := s ≠ "" ∧ all_digits s = true.

Definition is_property_id (s : string) : Prop :=
  ∃ a b, digits a ∧ digits b ∧ s = "UA-" +:+ a +:+ "-" +:+ b.

Definition NL : string := String newline EmptyString.

Definition PROPERTY_ID : string := "GOOGLE_ANALYTICS_PROPERTY_ID".

(** [str] of the value of key [k], the empty string when [k] is unbound. *)
Definition field (d : pydict) (k : string) : string :=
  match d !! k with Some v => py_str v | None => "" end.

(** The text a format string yields when every conversion [%(k)s] is
    replaced by [f k]. *)
Fixpoint fill (fmt : list seg) (f : string → string) : string :=
  match fmt with
  | [] => ""
  | Lit s :: fmt' => s +:+ fill fmt' f
  | Key k :: fmt' => f k +:+ fill fmt' f
  end.

Definition keys_of (fmt : list seg) : list string :=
  omap (λ s, match s with Key k => Some k | Lit _ => None end) fmt.

(** The commands as the page receives them. *)
Definition setCustomVar (index : Z) (name value scope : pyval) : string :=
  "_gaq.push(['_setCustomVar', " +:+ pretty index +:+ ", '" +:+ py_str name
  +:+ "', '" +:+ py_str value +:+ "', " +:+ py_str scope +:+ "]);".

(** The command of slot [i] holding the tuple [var]: its first two elements
    are name and value, the third the scope, [SCOPE_PAGE] without one. *)
Definition slot_command (i : Z) (var : list pyval) : string :=
  setCustomVar i (default PyNone (var !! 0%nat)) (default PyNone (var !! 1%nat))
    (default (PyInt SCOPE_PAGE) (var !! 2%nat)).

Definition addTrans (t : pydict) : string :=
  "_gaq.push(['_addTrans', '" +:+ field t "transactionId" +:+ "', '"
  +:+ field t "affiliation" +:+ "', '" +:+ field t "total" +:+ "', '"
  +:+ field t "tax" +:+ "', '" +:+ field t "shipping" +:+ "', '"
  +:+ field t "city" +:+ "', '" +:+ field t "state" +:+ "', '"
  +:+ field t "country" +:+ "']);".

Definition addItem (item : pydict) : string :=
  "_gaq.push(['_addItem', '" +:+ field item "transactionId" +:+ "', '"
  +:+ field item "sku" +:+ "', '" +:+ field item "name" +:+ "', '"
  +:+ field item "category" +:+ "', '" +:+ field item "price" +:+ "', '"
  +:+ field item "quantity" +:+ "']);".

Definition set_currencyCode (v : pyval) : string :=
  "_gaq.push(['_set', 'currencyCode', '" +:+ py_str v +:+ "']);".

(** A transaction with its required keys; an item with its required keys. *)
Definition valid_transaction (t : pydict) : bool :=
  py_in "transactionId" t && py_in "total" t.

Definition valid_item (item : pydict) : bool :=
  forallb (λ k, py_in k item) ["sku"; "name"; "price"; "quantity"].

(** The line items of a context, none when the key is unbound. *)
Definition items_of (context : Context) : list pydict :=
  default [] (google_analytics_items context).

(** The currency code in force: the context's when it binds one, the
    configured one otherwise, [None] without either. *)
Definition currency_of (settings : Settings) (context : Context) : pyval :=
  match google_analytics_currency_code context with
  | Some v => v
  | None =>
      match settings !! "GOOGLE_ANALYTICS_ECOMMERCE_CURRENCY_CODE" with
      | Some v => v
      | None => PyNone
      end
  end.

Definition currency_commands (v : pyval) : list string :=
  if py_truth v then [set_currencyCode v] else [].

(** The live snippet: account, page view, the commands, the loader. *)
Definition setAccount (property_id : string) : string :=
  "_gaq.push(['_setAccount', '" +:+ property_id +:+ "']);".
Definition trackPageview : string := "_gaq.push(['_trackPageview']);".
Definition loader (source : string * string) : string :=
  "(function() {
        var ga = document.createElement('script'); ga.type = 'text/javascript'; ga.async = true;
        ga.src = ('https:' == document.location.protocol ? " +:+ source.1
  +:+ ") + " +:+ source.2 +:+ ";
        var s = document.getElementsByTagName('script')[0]; s.parentNode.insertBefore(ga, s);
      })();".

Definition snippet_head (property_id : string) : string :=
  "
    <script type=" +:+ DQ +:+ "text/javascript" +:+ DQ +:+ ">

      var _gaq = _gaq || [];
      " +:+ setAccount property_id +:+ "
      " +:+ trackPageview +:+ "
      ".

Definition snippet_tail (source : string * string) : string :=
  "
      " +:+ loader source +:+ "

    </script>
".

Definition snippet (property_id commands : string) (source : string * string)
    : string :=
  snippet_head property_id +:+ commands +:+ snippet_tail source.

(** The source pair the advertising flag selects. *)
Definition source_of (settings : Settings) : string * string :=
  match settings !! "GOOGLE_ANALYTICS_DISPLAY_ADVERTISING" with
  | Some flag => if py_truth flag then DISPLAY_ADVERTISING_SOURCE else DEFAULT_SOURCE
  | None => DEFAULT_SOURCE
  end.

(** [sub] occurs in [s]. *)
Definition contains (sub s : string) : Prop :=
  ∃ pre post, s = pre +:+ sub +:+ post.

Fixpoint is_prefix (p s : string) : bool :=
  match p, s with
  | EmptyString, _ => true
  | String a p', String b s' => Ascii.eqb a b && is_prefix p' s'
  | String _ _, EmptyString => false
  end.

(** [sub] occurs in [s], decided. *)
Fixpoint is_substring (sub s : string) : bool :=
  is_prefix sub s ||
  match s with
  | String _ s' => is_substring sub s'
  | EmptyString => false
  end.

(** The [_set] commands among a list of commands. *)
Definition is_set_command (c : string) : bool :=
  is_prefix "_gaq.push(['_set', " c.

(** The configured tracking mode, single domain by default. *)
Definition tracking_style (settings : Settings) : pyval :=
  getattr settings "GOOGLE_ANALYTICS_TRACKING_STYLE" (PyInt TRACK_SINGLE_DOMAIN).

(** What the last step of [render] does to the live snippet, given the
    internal-IP test. *)
Definition wrap (is_internal_ip : Settings → Context → string → bool)
    (settings : Settings) (context : Context) (html : string) : string :=
  if is_internal_ip settings context "GOOGLE_ANALYTICS"
  then disable_html html "Google Analytics" else html.

(** Every custom-variable slot that holds a tuple holds at least a name and
    a value. *)
Definition custom_vars_indexable (context : Context) : Prop :=
  ∀ i v, i ∈ [1; 2; 3; 4; 5] → google_analytics_var context i = Some v →
         (2 ≤ length v)%nat.

(** The commands in the order of the spec's steps 1 to 4: domain, custom
    variables, transaction, then site speed and anonymize IP. *)
Definition spec_order_commands (dom cv tr other : list string) : list string :=
  dom ++ cv ++ tr ++ other.

(** ** Sample inputs *)

Definition sample_settings : Settings :=
  {[ "GOOGLE_ANALYTICS_PROPERTY_ID" := PyStr "UA-123456-7" ]}.

Definition multiple_domains_settings : Settings :=
  <[ "GOOGLE_ANALYTICS_TRACKING_STYLE" := PyInt TRACK_MULTIPLE_DOMAINS ]>
    sample_settings.

Definition site_speed_settings : Settings :=
  <[ "GOOGLE_ANALYTICS_SITE_SPEED" := PyBool true ]> sample_settings.

Definition sample_node : node := {| property_id := "UA-123456-7" |}.

Definition no_domain : Settings → Context → string → option string :=
  λ _ _ _, None.
Definition example_com : Settings → Context → string → option string :=
  λ _ _ _, Some "example.com".
Definition external_ip : Settings → Context → string → bool := λ _ _ _, false.

Definition empty_context : Context :=
  {| google_analytics_var := λ _, None;
     google_analytics_transaction := None;
     google_analytics_items := None;
     google_analytics_currency_code := None |}.

(** The custom variables of the tag's test [test_custom_vars]. *)
Definition custom_vars_context : Context :=
  {| google_analytics_var := λ i,
       if bool_decide (i = 1) then Some [PyStr "test1"; PyStr "foo"]
       else if bool_decide (i = 2)
       then Some [PyStr "test2"; PyStr "bar"; PyInt SCOPE_VISITOR]
       else if bool_decide (i = 4)
       then Some [PyStr "test4"; PyStr "baz"; PyInt SCOPE_SESSION]
       else if bool_decide (i = 5)
       then Some [PyStr "test5"; PyStr "qux"; PyInt SCOPE_PAGE]
       else None;
     google_analytics_transaction := None;
     google_analytics_items := None;
     google_analytics_currency_code := None |}.

(** A tuple with a name and no value in slot 3. *)
Definition short_var_context : Context :=
  {| google_analytics_var := λ i,
       if bool_decide (i = 3) then Some [PyStr "test3"] else None;
     google_analytics_transaction := None;
     google_analytics_items := None;
     google_analytics_currency_code := None |}.

Definition sample_transaction : pydict :=
  {[ "transactionId" := PyStr "1234"; "total" := PyStr "12.50";
     "city" := PyStr "Jersey City" ]}.

Definition sample_item : pydict :=
  {[ "sku" := PyStr "THNG001"; "name" := PyStr "thing";
     "price" := PyStr "50.00"; "quantity" := PyInt 1 ]}.

(** A transaction with one line item, and a currency code in the context. *)
Definition transaction_context : Context :=
  {| google_analytics_var := λ _, None;
     google_analytics_transaction := Some sample_transaction;
     google_analytics_items := Some [sample_item];
     google_analytics_currency_code := Some (PyStr "EUR") |}.

(** A transaction without its total. *)
Definition incomplete_transaction_context : Context :=
  {| google_analytics_var := λ _, None;
     google_analytics_transaction := Some {[ "transactionId" := PyStr "1234" ]};
     google_analytics_items := None;
     google_analytics_currency_code := None |}.

(** An empty transaction, beside an item without any of its keys. *)
Definition empty_transaction_context : Context :=
  {| google_analytics_var := λ _, None;
     google_analytics_transaction := Some ∅;
     google_analytics_items := Some [∅];
     google_analytics_currency_code := Some (PyStr "EUR") |}.

(** The first of the required keys that an item lacks. *)
Definition first_missing (item : pydict) : option string :=
  List.find (λ k, negb (py_in k item)) ["sku"; "name"; "price"; "quantity"].

(** A complete item, then one without price and quantity. *)
Definition incomplete_item_context : Context :=
  {| google_analytics_var := λ _, None;
     google_analytics_transaction := Some sample_transaction;
     google_analytics_items :=
       Some [sample_item;
             {[ "sku" := PyStr "THNG002"; "name" := PyStr "other thing" ]}];
     google_analytics_currency_code := None |}.

(** A registry of positions, as [add_node] may keep it. *)
Definition record_position
    (position : string) (cls : Settings → result node) (registry : list string)
    : list string :=
  registry ++ [position].

(** Multiple domains, site speed, anonymize IP and display advertising. *)
Definition full_settings : Settings :=
  <[ "GOOGLE_ANALYTICS_DISPLAY_ADVERTISING" := PyBool true ]>
    (<[ "GOOGLE_ANALYTICS_ANONYMIZE_IP" := PyBool true ]>
       (<[ "GOOGLE_ANALYTICS_SITE_SPEED" := PyBool true ]>
          multiple_domains_settings)).

(** Two custom variables, a transaction with one line item, a currency. *)
Definition full_context : Context :=
  {| google_analytics_var := λ i,
       if bool_decide (i = 2)
       then Some [PyStr "test2"; PyStr "bar"; PyInt SCOPE_VISITOR]
       else if bool_decide (i = 4) then Some [PyStr "test4"; PyStr "baz"]
       else None;
     google_analytics_transaction := Some sample_transaction;
     google_analytics_items := Some [sample_item];
     google_analytics_currency_code := Some (PyStr "EUR") |}.

(** * Properties *)

(** ** The property id *)

Lemma string_app_cons c (s r : string) : String c s +:+ r = String c (s +:+ r).
Proof. reflexivity. Qed.

Lemma string_app_nil_r (s : string) : s +:+ "" = s.
Proof. induction s as [|c s IH]; [done|]. by rewrite string_app_cons, IH. Qed.

Lemma string_app_assoc (a b c : string) : (a +:+ b) +:+ c = a +:+ b +:+ c.
Proof. induction a as [|x a IH]; [done|]. by rewrite !string_app_cons, IH. Qed.

Lemma match_plus_digits k a rest :
  digits a → k rest = true → match_plus ReDigit k (a +:+ rest) = true.
Proof.
  intros [Hne Hall] Hk. induction a as [|c a IH]; [done|].
  simpl in *. apply andb_true_iff in Hall as [Hc Ha]. rewrite Hc. simpl.
  destruct a as [|c' a'].
  - apply orb_true_iff. right. exact Hk.
  - apply orb_true_iff. left. by apply IH.
Qed.

Lemma match_plus_inv k s :
  match_plus ReDigit k s = true →
  ∃ a rest, s = a +:+ rest ∧ digits a ∧ k rest = true.
Proof.
  induction s as [|c s IH]; simpl; [done|].
  intros [Hc [H|H]%orb_true_iff]%andb_true_iff.
  - destruct (IH H) as (a & rest & -> & [Hne Ha] & Hk).
    exists (String c a), rest. repeat split; [done| |done].
    simpl. by rewrite Hc.
  - exists (String c EmptyString), s. repeat split; [done| |done].
    simpl. by rewrite Hc.
Qed.

Lemma at_eol_inv s : at_eol s = true → s = "" ∨ s = NL.
Proof.
  destruct s as [|c [|c' s]]; simpl; [by left| |done].
  intros ->%Ascii.eqb_eq. by right.
Qed.

Lemma accepts_char c c' : accepts (ReChar c) c' = true → c' = c.
Proof. simpl. by intros ->%Ascii.eqb_eq. Qed.

Lemma search_bol_later r s : search_from (ReBol :: r) false s = false.
Proof. induction s as [|c s IH]; simpl; [done|]. apply IH. Qed.

(** What [PROPERTY_ID_RE.search] accepts: the strings of the spec's shape,
    and those strings followed by one newline. *)
Lemma PROPERTY_ID_RE_search s :
  re_search PROPERTY_ID_RE s = true ↔
  ∃ a b, digits a ∧ digits b ∧
    (s = "UA-" +:+ a +:+ "-" +:+ b ∨ s = "UA-" +:+ a +:+ "-" +:+ b +:+ NL).
Proof.
  unfold re_search, PROPERTY_ID_RE. split.
  - intros H. destruct s as [|c0 s]; [done|].
    cbn [search_from] in H. rewrite search_bol_later, orb_false_r in H.
    cbn [match_here andb] in H.
    apply andb_true_iff in H as [->%accepts_char H].
    destruct s as [|c1 s]; [done|].
    apply andb_true_iff in H as [->%accepts_char H].
    destruct s as [|c2 s]; [done|].
    apply andb_true_iff in H as [->%accepts_char H].
    apply match_plus_inv in H as (a & rest & -> & Ha & H).
    destruct rest as [|c3 rest]; [done|].
    apply andb_true_iff in H as [->%accepts_char H].
    apply match_plus_inv in H as (b & tl & -> & Hb & H).
    apply andb_true_iff in H as [[->| ->]%at_eol_inv _].
    + exists a, b. repeat split; try apply Ha; try apply Hb.
      left. simpl. by rewrite string_app_nil_r.
    + exists a, b. repeat split; try apply Ha; try apply Hb. by right.
  - intros (a & b & Ha & Hb & Hs).
    assert (Hk : ∀ tl, at_eol tl = true →
      match_here [ReOne (ReChar "-"); RePlus ReDigit; ReEol] false
        ("-" +:+ b +:+ tl) = true).
    { intros tl Htl. simpl. apply match_plus_digits; [done|].
      by rewrite Htl. }
    destruct Hs as [-> | ->]; simpl; apply orb_true_iff; left;
      (apply match_plus_digits; [done|]).
    + specialize (Hk "" eq_refl). by rewrite string_app_nil_r in Hk.
    + by apply Hk.
Qed.

(** Construction fails with a ConfigurationError when the setting is missing. *)
Lemma init_missing (settings : Settings) :
  settings !! PROPERTY_ID = None →
  ∃ msg, __init__ settings = Raise (AnalyticalException msg).
Proof.
  intros H. unfold __init__, get_required_setting, PROPERTY_ID in *.
  rewrite H. eauto.
Qed.

(** Construction succeeds on every string of the spec's shape. *)
Lemma init_accepts_property_id (settings : Settings) (s : string) :
  settings !! PROPERTY_ID = Some (PyStr s) → is_property_id s →
  __init__ settings = Ok {| property_id := s |}.
Proof.
  intros H (a & b & Ha & Hb & Hs).
  unfold __init__, get_required_setting, PROPERTY_ID in *. rewrite H.
  cbn [py_str].
  assert (re_search PROPERTY_ID_RE s = true) as ->; [|done].
  apply PROPERTY_ID_RE_search. exists a, b. auto.
Qed.

(** Construction succeeds exactly when the text of the setting has the
    spec's shape, or has it up to one newline at its end. *)
Lemma init_ok_iff (settings : Settings) (self : node) :
  __init__ settings = Ok self ↔
  ∃ v, settings !! PROPERTY_ID = Some v ∧ property_id self = py_str v ∧
       (is_property_id (py_str v) ∨
        ∃ s, is_property_id s ∧ py_str v = s +:+ NL).
Proof.
  unfold __init__, get_required_setting, PROPERTY_ID.
  destruct (settings !! "GOOGLE_ANALYTICS_PROPERTY_ID") as [v|] eqn:Hv.
  2:{ split; [done|]. by intros (v & ? & _). }
  cbn zeta. destruct (re_search PROPERTY_ID_RE (py_str v)) eqn:Hre.
  - apply PROPERTY_ID_RE_search in Hre as (a & b & Ha & Hb & Hs).
    split.
    + intros [= <-]. exists v. split; [done|]. split; [done|].
      destruct Hs as [Hs|Hs].
      * left. by exists a, b.
      * right. exists ("UA-" +:+ a +:+ "-" +:+ b). split; [by exists a, b|].
        rewrite Hs. simpl. by rewrite !string_app_assoc.
    + intros (v' & [= <-] & Hp & _). destruct self as [p]. simpl in *.
      by subst.
  - split; [done|]. intros (v' & [= <-] & _ & H). exfalso.
    assert (re_search PROPERTY_ID_RE (py_str v) = true); [|congruence].
    apply PROPERTY_ID_RE_search.
    destruct H as [(a & b & Ha & Hb & Hs) | (s & (a & b & Ha & Hb & Hs) & Hnl)].
    + exists a, b. auto.
    + exists a, b. split; [done|]. split; [done|]. right.
      rewrite Hnl, Hs. simpl. by rewrite !string_app_assoc.
Qed.

(** C1.  Construction does not fail on every setting that is not of the
    shape [UA-<digits>-<digits>]: the property id ["UA-1-2"] followed by a
    newline is not of that shape, and construction succeeds with it, because
    [$] in [PROPERTY_ID_RE] also matches just before a final newline.
    Construction does fail for a missing setting ([init_missing]) and does
    succeed on every string of the shape ([init_accepts_property_id]);
    [init_ok_iff] tells when it succeeds. *)
Theorem C1_init_accepts_trailing_newline :
  ¬ is_property_id ("UA-1-2" +:+ NL) ∧
  __init__ {[ PROPERTY_ID := PyStr ("UA-1-2" +:+ NL) ]}
  = Ok {| property_id := "UA-1-2" +:+ NL |}.
Proof.
  split; [|reflexivity].
  intros (a & b & [Ha1 Ha2] & [Hb1 Hb2] & Heq).
  simpl in Heq. injection Heq as Heq.
  destruct a as [|c a]; [done|].
  simpl in Heq. injection Heq as <- Heq.
  destruct a as [|c a].
  - simpl in Heq. injection Heq as <-. done.
  - simpl in Heq. injection Heq as <- _. done.
Qed.

(** ** Formatting and loops *)

Lemma format_ok (fmt : list seg) (d : pydict) :
  Forall (λ k, is_Some (d !! k)) (keys_of fmt) →
  format fmt d = Ok (fill fmt (field d)).
Proof.
  induction fmt as [|[s|k] fmt IH]; intros H; [done| |].
  - cbn [format fill]. by rewrite (IH H).
  - cbn in H. apply Forall_cons in H as [[v Hv] H].
    cbn [format fill]. unfold field at 1. rewrite Hv, (IH H). done.
Qed.

(** A format never raises anything but a [KeyError]. *)
Lemma format_raise (fmt : list seg) (d : pydict) (e : exn) :
  format fmt d = Raise e → ∃ k, e = KeyError k ∧ k ∈ keys_of fmt ∧ d !! k = None.
Proof.
  induction fmt as [|[s|k] fmt IH]; [done| |]; cbn [format].
  - destruct (format fmt d) eqn:E; [done|]. intros [= <-].
    destruct (IH eq_refl) as (k & ? & ? & ?). by exists k.
  - destruct (d !! k) eqn:Hk.
    + destruct (format fmt d) eqn:E; [done|]. intros [= <-].
      destruct (IH eq_refl) as (k' & ? & ? & ?). exists k'.
      split; [done|]. split; [|done]. cbn. by right.
    + intros [= <-]. exists k. split; [done|]. split; [|done]. cbn. by left.
Qed.

Lemma field_update (defaults d : pydict) (k : string) :
  field (dict_update defaults d) k =
  match d !! k with Some v => py_str v | None => field defaults k end.
Proof.
  unfold field, dict_update. rewrite lookup_union.
  destruct (d !! k), (defaults !! k); done.
Qed.

Lemma lookup_update_is_Some (defaults d : pydict) (k : string) :
  is_Some (d !! k) ∨ is_Some (defaults !! k) →
  is_Some (dict_update defaults d !! k).
Proof.
  unfold dict_update. rewrite lookup_union.
  destruct (d !! k), (defaults !! k); intros [[? ?]|[? ?]]; by eauto.
Qed.

Lemma py_in_is_Some (k : string) (d : pydict) :
  py_in k d = true ↔ is_Some (d !! k).
Proof.
  unfold py_in. destruct (d !! k) eqn:E; split; intros H; try done;
    try (by eauto); by destruct H.
Qed.

(** A loop that collects one result per element: it returns when the body
    returns on every element, and raises what the body raises on the first
    element where it raises. *)
Lemma mapM_Ok {A B} (f : A → result B) (g : A → B) (l : list A) :
  Forall (λ x, f x = Ok (g x)) l → mapM f l = Ok (map g l).
Proof.
  induction 1 as [|x l Hx _ IH]; [done|]. cbn. rewrite Hx. cbn.
  rewrite IH. done.
Qed.

Lemma mapM_Raise {A B} (f : A → result B) (l1 l2 : list A) (x : A) (e : exn) :
  Forall (λ y, ∃ b, f y = Ok b) l1 → f x = Raise e →
  mapM f (l1 ++ x :: l2) = Raise e.
Proof.
  intros H Hx. induction H as [|y l1 [b Hy] _ IH]; cbn.
  - by rewrite Hx.
  - rewrite Hy. cbn. by rewrite IH.
Qed.

Lemma mapM_cases {A B} (f : A → result B) (l : list A) :
  (∃ bs, mapM f l = Ok bs ∧ Forall2 (λ x b, f x = Ok b) l bs) ∨
  (∃ l1 x l2 e, l = l1 ++ x :: l2 ∧ Forall (λ y, ∃ b, f y = Ok b) l1 ∧
                f x = Raise e ∧ mapM f l = Raise e).
Proof.
  induction l as [|x l IH].
  - left. exists []. split; [done|]. constructor.
  - destruct (f x) as [b|e] eqn:Hx.
    + destruct IH as [(bs & Hbs & HF) | (l1 & y & l2 & e & -> & Hl1 & Hy & He)].
      * left. exists (b :: bs). cbn. rewrite Hx. cbn. rewrite Hbs.
        split; [done|]. by constructor.
      * right. exists (x :: l1), y, l2, e. split; [done|].
        split; [constructor; eauto|]. split; [done|].
        cbn. rewrite Hx. cbn. by rewrite He.
    + right. exists [], x, l, e. split; [done|]. split; [constructor|].
      split; [done|]. cbn. by rewrite Hx.
Qed.

(** ** The steps of [render] *)

Lemma format_CUSTOM_VAR_CODE (index : Z) (name value scope : pyval) :
  format CUSTOM_VAR_CODE
    {[ "index" := PyInt index; "name" := name; "value" := value;
       "scope" := scope ]}
  = Ok (setCustomVar index name value scope).
Proof.
  rewrite format_ok.
  - reflexivity.
  - repeat constructor; by eexists.
Qed.

Lemma format_SET_CODE (v : pyval) :
  format SET_CODE {[ "key" := PyStr "currencyCode"; "value" := v ]}
  = Ok (set_currencyCode v).
Proof.
  rewrite format_ok.
  - reflexivity.
  - repeat constructor; by eexists.
Qed.

Lemma format_SETUP_CODE (pid commands : string) (source : string * string) :
  format SETUP_CODE
    {[ "property_id" := PyStr pid; "commands" := PyStr commands;
       "source_scheme" := PyStr source.1; "source_url" := PyStr source.2 ]}
  = Ok (snippet pid commands source).
Proof.
  rewrite format_ok.
  - unfold snippet, snippet_head, snippet_tail, setAccount, trackPageview,
      loader.
    rewrite !string_app_assoc. reflexivity.
  - repeat constructor; by eexists.
Qed.

Lemma custom_var_command_ok (index : Z) (var : list pyval) :
  (2 ≤ length var)%nat →
  custom_var_command index var = Ok (slot_command index var).
Proof.
  destruct var as [|name [|value rest]]; cbn [length]; [lia|lia|]. intros _.
  unfold custom_var_command, slot_command. cbn [py_getitem lookup list_lookup].
  cbn [mbind result_bind].
  destruct rest as [|scope rest]; cbn; apply format_CUSTOM_VAR_CODE.
Qed.

Lemma custom_var_command_short (index : Z) (var : list pyval) :
  (length var < 2)%nat → custom_var_command index var = Raise IndexError.
Proof.
  destruct var as [|name [|value rest]]; cbn [length]; [done|done|lia].
Qed.

(** The loop of [_get_custom_var_commands] runs over the slots 1 to 5 that
    hold a value, each paired with its own number. *)
Lemma custom_var_vars (context : Context) :
  _get_custom_var_commands context =
  mapM (λ iv : Z * list pyval, custom_var_command iv.1 iv.2)
    (omap (λ i, pair i <$> google_analytics_var context i) [1; 2; 3; 4; 5]).
Proof. reflexivity. Qed.

Lemma mapM_slots {B} (h : Z → option (list pyval))
    (f : Z * list pyval → result B) (g : Z → list pyval → B) (L : list Z) :
  (∀ i v, i ∈ L → h i = Some v → f (i, v) = Ok (g i v)) →
  mapM f (omap (λ i, pair i <$> h i) L) = Ok (omap (λ i, g i <$> h i) L).
Proof.
  induction L as [|i L IH]; intros H; [done|].
  cbn [omap list_omap]. destruct (h i) as [v|] eqn:Hi; cbn [fmap option_fmap option_map].
  - cbn [mapM]. rewrite (H i v); [|by left|done]. cbn [mbind result_bind].
    rewrite IH; [done|]. intros j w Hj. apply H. by right.
  - apply IH. intros j w Hj. apply H. by right.
Qed.

Lemma custom_var_commands_ok (context : Context) :
  (∀ i v, i ∈ [1; 2; 3; 4; 5] → google_analytics_var context i = Some v →
          (2 ≤ length v)%nat) →
  _get_custom_var_commands context =
  Ok (omap (λ i, slot_command i <$> google_analytics_var context i)
        [1; 2; 3; 4; 5]).
Proof.
  intros H. rewrite custom_var_vars. apply mapM_slots.
  intros i v Hi Hv. apply custom_var_command_ok. by apply (H i).
Qed.

Lemma custom_var_commands_short (context : Context) (i : Z) (v : list pyval) :
  i ∈ [1; 2; 3; 4; 5] → google_analytics_var context i = Some v →
  (length v < 2)%nat →
  _get_custom_var_commands context = Raise IndexError.
Proof.
  intros Hi Hv Hlen. rewrite custom_var_vars.
  set (f := λ iv : Z * list pyval, custom_var_command iv.1 iv.2).
  assert (Hin : (i, v) ∈ omap (λ i, pair i <$> google_analytics_var context i)
                              [1; 2; 3; 4; 5]).
  { apply list_elem_of_omap. exists i. split; [done|]. by rewrite Hv. }
  destruct (mapM_cases f (omap (λ i, pair i <$> google_analytics_var context i)
                               [1; 2; 3; 4; 5]))
    as [(bs & _ & HF) | (l1 & x & l2 & e & _ & _ & Hx & ->)].
  - exfalso. apply list_elem_of_lookup in Hin as [n Hn].
    destruct (Forall2_lookup_l _ _ _ _ _ HF Hn) as (b & _ & Hb).
    unfold f in Hb. cbn in Hb.
    by rewrite custom_var_command_short in Hb.
  - f_equal. unfold f in Hx. destruct x as [j w]. cbn in Hx.
    destruct (decide (length w < 2)%nat) as [Hw|Hw].
    + rewrite custom_var_command_short in Hx; [|done]. congruence.
    + rewrite custom_var_command_ok in Hx; [done|lia].
Qed.

Lemma fill_ext (fmt : list seg) (f g : string → string) :
  Forall (λ k, f k = g k) (keys_of fmt) → fill fmt f = fill fmt g.
Proof.
  induction fmt as [|[s|k] fmt IH]; intros H; [done| |]; cbn [fill].
  - by rewrite (IH H).
  - cbn in H. apply Forall_cons in H as [-> H]. by rewrite (IH H).
Qed.

(** Defaults that are empty strings leave the text of every key as the
    dict itself gives it. *)
Lemma field_update_empty (defaults d : pydict) (k : string) :
  field defaults k = "" → field (dict_update defaults d) k = field d k.
Proof.
  intros H. rewrite field_update. unfold field at 2. by destruct (d !! k).
Qed.

Lemma check_item_valid (item : pydict) :
  valid_item item = true → check_item item = Ok tt.
Proof.
  unfold valid_item, check_item. cbn [forallb mapM].
  destruct (py_in "sku" item), (py_in "name" item), (py_in "price" item),
    (py_in "quantity" item); done.
Qed.

Lemma check_item_invalid (item : pydict) :
  valid_item item = false →
  ∃ msg, check_item item = Raise (AnalyticalException msg).
Proof.
  unfold valid_item, check_item. cbn [forallb mapM].
  destruct (py_in "sku" item), (py_in "name" item), (py_in "price" item),
    (py_in "quantity" item); try done; intros _; cbn; eauto.
Qed.

Lemma valid_item_keys (item : pydict) :
  valid_item item = true →
  is_Some (item !! "sku") ∧ is_Some (item !! "name") ∧
  is_Some (item !! "price") ∧ is_Some (item !! "quantity").
Proof.
  unfold valid_item. cbn [forallb]. rewrite !andb_true_iff, !py_in_is_Some.
  tauto.
Qed.

Lemma item_command_valid (item : pydict) :
  valid_item item = true → item_command item = Ok (addItem item).
Proof.
  intros H. unfold item_command. rewrite (check_item_valid _ H).
  cbn [mbind result_bind].
  destruct (valid_item_keys _ H) as (? & ? & ? & ?).
  rewrite format_ok.
  - f_equal. rewrite (fill_ext _ _ (field item)); [done|].
    repeat constructor; by apply field_update_empty.
  - repeat constructor; apply lookup_update_is_Some; auto;
      right; by eexists.
Qed.

Lemma item_command_invalid (item : pydict) :
  valid_item item = false →
  ∃ msg, item_command item = Raise (AnalyticalException msg).
Proof.
  intros H. unfold item_command.
  destruct (check_item_invalid _ H) as [msg ->]. by exists msg.
Qed.

Lemma items_commands_valid (items : list pydict) :
  forallb valid_item items = true →
  mapM item_command items = Ok (map addItem items).
Proof.
  intros H. apply mapM_Ok. apply Forall_forall. intros item Hin.
  apply item_command_valid.
  rewrite forallb_forall in H. apply H. by apply list_elem_of_In.
Qed.

Lemma items_commands_invalid (items : list pydict) :
  forallb valid_item items = false →
  ∃ msg, mapM item_command items = Raise (AnalyticalException msg).
Proof.
  induction items as [|item items IH]; [done|].
  cbn [forallb mapM]. destruct (valid_item item) eqn:Hv.
  - intros H. destruct (IH H) as [msg Hm]. exists msg.
    rewrite (item_command_valid _ Hv). cbn. by rewrite Hm.
  - intros _. destruct (item_command_invalid _ Hv) as [msg ->]. by exists msg.
Qed.

Lemma dict_truth_true (d : pydict) : d ≠ ∅ → dict_truth d = true.
Proof. intros H. unfold dict_truth. by rewrite bool_decide_eq_false_2. Qed.

Lemma format_TRANSACTION_CODE (t : pydict) :
  valid_transaction t = true →
  format TRANSACTION_CODE
    (dict_update
       {[ "affiliation" := PyStr ""; "tax" := PyStr "";
          "shipping" := PyStr ""; "city" := PyStr "";
          "state" := PyStr ""; "country" := PyStr "" ]} t)
  = Ok (addTrans t).
Proof.
  intros [H1 H2]%andb_true_iff. apply py_in_is_Some in H1, H2.
  rewrite format_ok.
  - f_equal. rewrite (fill_ext _ _ (field t)); [done|].
    repeat constructor; by apply field_update_empty.
  - repeat constructor; apply lookup_update_is_Some; auto;
      right; by eexists.
Qed.

Lemma getattr_currency (settings : Settings) (context : Context) :
  default (getattr settings "GOOGLE_ANALYTICS_ECOMMERCE_CURRENCY_CODE" PyNone)
          (google_analytics_currency_code context)
  = currency_of settings context.
Proof.
  unfold currency_of, getattr.
  destruct (google_analytics_currency_code context); [done|].
  by destruct (settings !! _).
Qed.

(** The transaction step on a transaction that is absent or empty. *)
Lemma transaction_commands_falsy (settings : Settings) (context : Context) :
  google_analytics_transaction context = None ∨
  google_analytics_transaction context = Some ∅ →
  _get_transaction_commands settings context = Ok [].
Proof. unfold _get_transaction_commands. by intros [-> | ->]. Qed.

(** The transaction step on a non-empty transaction without its keys. *)
Lemma transaction_commands_invalid settings context (t : pydict) :
  google_analytics_transaction context = Some t → t ≠ ∅ →
  valid_transaction t = false →
  ∃ msg, _get_transaction_commands settings context
         = Raise (AnalyticalException msg).
Proof.
  intros Ht Hne Hv. unfold _get_transaction_commands. rewrite Ht.
  rewrite (dict_truth_true _ Hne). cbn [negb].
  unfold valid_transaction in Hv.
  destruct (py_in "transactionId" t), (py_in "total" t); try done; cbn; eauto.
Qed.

(** The transaction step on a complete transaction with an incomplete item. *)
Lemma transaction_commands_item_invalid settings context (t : pydict) :
  google_analytics_transaction context = Some t → t ≠ ∅ →
  valid_transaction t = true →
  forallb valid_item (items_of context) = false →
  ∃ msg, _get_transaction_commands settings context
         = Raise (AnalyticalException msg).
Proof.
  intros Ht Hne Hv Hi. unfold _get_transaction_commands. rewrite Ht.
  rewrite (dict_truth_true _ Hne). cbn [negb].
  pose proof Hv as [-> ->]%andb_true_iff. cbn [negb orb].
  rewrite (format_TRANSACTION_CODE _ Hv). cbn [mbind result_bind].
  destruct (items_commands_invalid _ Hi) as [msg Hm]. exists msg.
  unfold items_of in Hm. by rewrite Hm.
Qed.

(** The transaction step on a complete transaction with complete items. *)
Lemma transaction_commands_valid settings context (t : pydict) :
  google_analytics_transaction context = Some t → t ≠ ∅ →
  valid_transaction t = true →
  forallb valid_item (items_of context) = true →
  _get_transaction_commands settings context =
  Ok ([addTrans t] ++ map addItem (items_of context)
      ++ currency_commands (currency_of settings context)
      ++ [TRACK_TRANSACTION_CODE]).
Proof.
  intros Ht Hne Hv Hi. unfold _get_transaction_commands. rewrite Ht.
  rewrite (dict_truth_true _ Hne). cbn [negb].
  pose proof Hv as [-> ->]%andb_true_iff. cbn [negb orb].
  rewrite (format_TRANSACTION_CODE _ Hv). cbn [mbind result_bind].
  pose proof (items_commands_valid _ Hi) as Hm. unfold items_of in Hm.
  rewrite Hm. cbn [mbind result_bind]. rewrite getattr_currency.
  unfold currency_commands.
  destruct (py_truth (currency_of settings context)).
  - rewrite format_SET_CODE. cbn [mbind result_bind].
    f_equal. cbn [app]. by rewrite <-!app_assoc.
  - cbn [mbind result_bind]. done.
Qed.

(** No [_addItem] command is a [_set] command. *)
Lemma filter_addItem (items : list pydict) :
  List.filter is_set_command (map addItem items) = [].
Proof. induction items as [|item items IH]; [done|]. exact IH. Qed.

Lemma filter_transaction_commands (t : pydict) (v : pyval) :
  List.filter is_set_command [addTrans t] ++ [] ++
  List.filter is_set_command (if py_truth v then [set_currencyCode v] else [])
  ++ List.filter is_set_command [TRACK_TRANSACTION_CODE]
  = if py_truth v then [set_currencyCode v] else [].
Proof. by destruct (py_truth v). Qed.

(** ** Occurrences *)

Lemma is_prefix_spec (p s : string) :
  is_prefix p s = true ↔ ∃ post, s = p +:+ post.
Proof.
  revert s. induction p as [|a p IH]; intros s; cbn [is_prefix].
  - split; [|done]. intros _. by exists s.
  - destruct s as [|b s].
    + split; [done|]. by intros [post ?].
    + rewrite andb_true_iff, Ascii.eqb_eq, IH. split.
      * intros [-> [post ->]]. by exists post.
      * intros [post Hp]. simpl in Hp. injection Hp as -> ->. eauto.
Qed.

Lemma is_substring_spec (sub s : string) :
  is_substring sub s = true ↔ contains sub s.
Proof.
  unfold contains. induction s as [|c s IH]; cbn [is_substring].
  - rewrite orb_false_r, is_prefix_spec. split.
    + intros [post ->]. by exists "", post.
    + intros (pre & post & H). destruct pre; [by exists post|done].
  - rewrite orb_true_iff, is_prefix_spec, IH. split.
    + intros [[post ->] | (pre & post & ->)].
      * by exists "", post.
      * by exists (String c pre), post.
    + intros (pre & post & H). destruct pre as [|c' pre].
      * left. by exists post.
      * right. simpl in H. injection H as -> ->. by exists pre, post.
Qed.

Lemma contains_app (sub s pre post : string) :
  contains sub s → contains sub (pre +:+ s +:+ post).
Proof.
  intros (a & b & ->). exists (pre +:+ a), (b +:+ post).
  by rewrite !string_app_assoc.
Qed.

(** Every element of a joined list occurs in the result. *)
Lemma contains_join (sep x : string) (l : list string) :
  x ∈ l → contains x (join sep l).
Proof.
  unfold join. induction l as [|y l IH]; [by intros ?%elem_of_nil|].
  intros [-> | Hin]%elem_of_cons.
  - destruct l as [|z l].
    + exists "", "". cbn. by rewrite string_app_nil_r.
    + by exists "", (sep +:+ String.concat sep (z :: l)).
  - destruct l as [|z l]; [by apply elem_of_nil in Hin|].
    change (String.concat sep (y :: z :: l))
      with (y +:+ sep +:+ String.concat sep (z :: l)).
    destruct (IH Hin) as (a & b & ->).
    exists (y +:+ sep +:+ a), b. by rewrite !string_app_assoc.
Qed.

Lemma contains_snippet (sub pid commands : string) (source : string * string) :
  contains sub commands → contains sub (snippet pid commands source).
Proof.
  intros (a & b & ->). unfold snippet.
  exists (snippet_head pid +:+ a), (b +:+ snippet_tail source).
  by rewrite !string_app_assoc.
Qed.

Lemma contains_disable_html (sub html service : string) :
  contains sub html → contains sub (disable_html html service).
Proof.
  intros (a & b & ->). unfold disable_html.
  exists ("<!-- " +:+ service +:+ " disabled on internal IP address
" +:+ a), (b +:+ "
-->").
  by rewrite !string_app_assoc.
Qed.

(** ** [render] as a whole *)

Section Render.

Variable get_domain : Settings → Context → string → option string.
Variable is_internal_ip : Settings → Context → string → bool.

Lemma domain_commands_single settings context :
  py_eq (tracking_style settings) (PyInt TRACK_SINGLE_DOMAIN) = true →
  _get_domain_commands get_domain settings context = Ok [].
Proof.
  intros H. unfold _get_domain_commands. fold (tracking_style settings).
  by rewrite H.
Qed.

Lemma domain_commands_domain settings context (domain : string) :
  py_eq (tracking_style settings) (PyInt TRACK_SINGLE_DOMAIN) = false →
  get_domain settings context "google_analytics" = Some domain →
  _get_domain_commands get_domain settings context =
  Ok ([DOMAIN_CODE domain; NO_ALLOW_HASH_CODE] ++
      if py_eq (tracking_style settings) (PyInt TRACK_MULTIPLE_DOMAINS)
      then [ALLOW_LINKER_CODE] else []).
Proof.
  intros H Hd. unfold _get_domain_commands. fold (tracking_style settings).
  rewrite H, Hd.
  by destruct (py_eq (tracking_style settings) (PyInt TRACK_MULTIPLE_DOMAINS)).
Qed.

Lemma domain_commands_no_domain settings context :
  py_eq (tracking_style settings) (PyInt TRACK_SINGLE_DOMAIN) = false →
  get_domain settings context "google_analytics" = None →
  ∃ msg, _get_domain_commands get_domain settings context
         = Raise (AnalyticalException msg).
Proof.
  intros H Hd. unfold _get_domain_commands. fold (tracking_style settings).
  rewrite H, Hd. eauto.
Qed.

(** The domain step raises nothing but a ConfigurationError. *)
Lemma domain_commands_raise settings context (e : exn) :
  _get_domain_commands get_domain settings context = Raise e →
  ∃ msg, e = AnalyticalException msg.
Proof.
  unfold _get_domain_commands.
  destruct (py_eq _ _); [done|].
  destruct (get_domain _ _ _); [done|]. intros [= <-]. eauto.
Qed.

Lemma source_of_getattr (settings : Settings) :
  (if py_truth (getattr settings "GOOGLE_ANALYTICS_DISPLAY_ADVERTISING"
                        (PyBool false))
   then DISPLAY_ADVERTISING_SOURCE else DEFAULT_SOURCE) = source_of settings.
Proof. unfold source_of, getattr. by destruct (settings !! _). Qed.

(** [render] runs the four steps in the order domain, custom variables,
    other, transaction; when none raises, the result is the snippet around
    their commands, wrapped or not. *)
Lemma render_steps (self : node) settings context :
  render get_domain is_internal_ip self settings context =
  dom ← _get_domain_commands get_domain settings context;
  cv ← _get_custom_var_commands context;
  tr ← _get_transaction_commands settings context;
  Ok (wrap is_internal_ip settings context
        (snippet (property_id self)
           (join " " (dom ++ cv ++ _get_other_commands settings context ++ tr))
           (source_of settings))).
Proof.
  unfold render.
  destruct (_get_domain_commands get_domain settings context) as [dom|e];
    [|done]. cbn [mbind result_bind].
  destruct (_get_custom_var_commands context) as [cv|e]; [|done].
  cbn [mbind result_bind].
  destruct (_get_transaction_commands settings context) as [tr|e]; [|done].
  cbn [mbind result_bind]. rewrite source_of_getattr.
  rewrite format_SETUP_CODE. cbn [mbind result_bind].
  by rewrite <-!app_assoc.
Qed.

Lemma render_Ok_inv (self : node) settings context (html : string) :
  render get_domain is_internal_ip self settings context = Ok html →
  ∃ dom cv tr,
    _get_domain_commands get_domain settings context = Ok dom ∧
    _get_custom_var_commands context = Ok cv ∧
    _get_transaction_commands settings context = Ok tr ∧
    html = wrap is_internal_ip settings context
             (snippet (property_id self)
                (join " " (dom ++ cv ++ _get_other_commands settings context
                           ++ tr))
                (source_of settings)).
Proof.
  rewrite render_steps.
  destruct (_get_domain_commands get_domain settings context) as [dom|e];
    [|done].
  destruct (_get_custom_var_commands context) as [cv|e]; [|done].
  destruct (_get_transaction_commands settings context) as [tr|e]; [|done].
  intros [= <-]. by exists dom, cv, tr.
Qed.

(** Every command of a step occurs in the output. *)
Lemma contains_wrap settings context (sub html : string) :
  contains sub html → contains sub (wrap is_internal_ip settings context html).
Proof.
  intros H. unfold wrap. destruct (is_internal_ip _ _ _); [|done].
  by apply contains_disable_html.
Qed.

Lemma render_contains (self : node) settings context html dom cv tr c :
  html = wrap is_internal_ip settings context
           (snippet (property_id self)
              (join " " (dom ++ cv ++ _get_other_commands settings context
                         ++ tr))
              (source_of settings)) →
  c ∈ dom ++ cv ++ _get_other_commands settings context ++ tr →
  contains c html.
Proof.
  intros -> Hc. apply contains_wrap, contains_snippet.
  by apply contains_join.
Qed.

End Render.

(** * The properties of the specification *)

Section Claims.

Variable get_domain : Settings → Context → string → option string.
Variable is_internal_ip : Settings → Context → string → bool.

(** C2, amended.  For every render whose context binds a non-empty
    transaction, and whose custom-variable tuples all have a name and a
    value: render raises a ConfigurationError when the transaction lacks
    [transactionId] or [total], and when a line item lacks one of [sku],
    [name], [price], [quantity]; with a complete transaction and complete
    items the transaction step returns, and whatever it raises is a
    ConfigurationError. *)
Theorem C2_transaction_errors (self : node) settings context (t : pydict) :
  google_analytics_transaction context = Some t → t ≠ ∅ →
  custom_vars_indexable context →
  (valid_transaction t = false →
   ∃ msg, render get_domain is_internal_ip self settings context
          = Raise (AnalyticalException msg)) ∧
  (forallb valid_item (items_of context) = false →
   ∃ msg, render get_domain is_internal_ip self settings context
          = Raise (AnalyticalException msg)) ∧
  (valid_transaction t = true →
   forallb valid_item (items_of context) = true →
   ∃ cmds, _get_transaction_commands settings context = Ok cmds) ∧
  (∀ e, _get_transaction_commands settings context = Raise e →
        is_ConfigurationError e = true).
Proof.
  intros Ht Hne Hcv.
  assert (Hraise : ∀ msg,
    _get_transaction_commands settings context
      = Raise (AnalyticalException msg) →
    ∃ msg', render get_domain is_internal_ip self settings context
            = Raise (AnalyticalException msg')).
  { intros msg Hm. rewrite render_steps.
    destruct (_get_domain_commands get_domain settings context)
      as [dom|e] eqn:Hd.
    - rewrite (custom_var_commands_ok _ Hcv), Hm. by exists msg.
    - destruct (domain_commands_raise _ _ _ _ Hd) as [msg' ->].
      by exists msg'. }
  assert (Hcases :
    (∃ msg, _get_transaction_commands settings context
            = Raise (AnalyticalException msg)) ∨
    (valid_transaction t = true ∧
     forallb valid_item (items_of context) = true ∧
     ∃ cmds, _get_transaction_commands settings context = Ok cmds)).
  { destruct (valid_transaction t) eqn:Hv.
    - destruct (forallb valid_item (items_of context)) eqn:Hi.
      + right. split; [done|]. split; [done|].
        rewrite (transaction_commands_valid _ _ _ Ht Hne Hv Hi). eauto.
      + left. by apply (transaction_commands_item_invalid _ _ t).
    - left. by apply (transaction_commands_invalid _ _ t). }
  repeat split.
  - intros Hv. destruct Hcases as [[msg Hm] | (Hv' & _)]; [|congruence].
    by apply (Hraise msg).
  - intros Hi. destruct Hcases as [[msg Hm] | (_ & Hi' & _)]; [|congruence].
    by apply (Hraise msg).
  - intros Hv Hi. destruct Hcases as [[msg Hm] | (_ & _ & H)]; [|done].
    destruct (valid_transaction t) eqn:Hv'; [|done].
    rewrite (transaction_commands_valid _ _ _ Ht Hne Hv' Hi). eauto.
  - intros e He. destruct Hcases as [[msg Hm] | (_ & _ & [cmds H])].
    + rewrite Hm in He. by injection He as <-.
    + congruence.
Qed.

(** C3.  In single-domain mode no domain command is emitted.  In the
    multiple-subdomains and multiple-domains modes with a domain name, the
    domain step emits the set-domain command of that name and the
    disable-hash command, followed by the allow-linker command in the
    multiple-domains mode and by nothing in the other; both commands occur in
    the output of render.  In a mode other than single-domain without a
    domain name, render raises a ConfigurationError. *)
Theorem C3_domain_commands settings context :
  (tracking_style settings = PyInt TRACK_SINGLE_DOMAIN →
   _get_domain_commands get_domain settings context = Ok []) ∧
  (∀ domain,
     get_domain settings context "google_analytics" = Some domain →
     (tracking_style settings = PyInt TRACK_MULTIPLE_SUBDOMAINS →
      _get_domain_commands get_domain settings context
      = Ok [("_gaq.push(['_setDomainName', '" +:+ domain +:+ "']);"); "_gaq.push(['_setAllowHash', false]);"]) ∧
     (tracking_style settings = PyInt TRACK_MULTIPLE_DOMAINS →
      _get_domain_commands get_domain settings context
      = Ok [("_gaq.push(['_setDomainName', '" +:+ domain +:+ "']);"); "_gaq.push(['_setAllowHash', false]);"; "_gaq.push(['_setAllowLinker', true]);"]) ∧
     ("_gaq.push(['_setAllowLinker', true]);" ∉ [("_gaq.push(['_setDomainName', '" +:+ domain +:+ "']);"); "_gaq.push(['_setAllowHash', false]);"]) ∧
     (py_eq (tracking_style settings) (PyInt TRACK_SINGLE_DOMAIN) = false →
      ∀ self html,
        render get_domain is_internal_ip self settings context = Ok html →
        contains (("_gaq.push(['_setDomainName', '" +:+ domain +:+ "']);")) html ∧
        contains "_gaq.push(['_setAllowHash', false]);" html)) ∧
  (py_eq (tracking_style settings) (PyInt TRACK_SINGLE_DOMAIN) = false →
   get_domain settings context "google_analytics" = None →
   ∀ self, ∃ msg, render get_domain is_internal_ip self settings context
                  = Raise (AnalyticalException msg)).
Proof.
  split; [|split].
  - intros H. apply domain_commands_single. by rewrite H.
  - intros domain Hd.
    assert (Hout : py_eq (tracking_style settings) (PyInt TRACK_SINGLE_DOMAIN)
                   = false →
      ∀ self html c,
        render get_domain is_internal_ip self settings context = Ok html →
        c ∈ [DOMAIN_CODE domain; NO_ALLOW_HASH_CODE] → contains c html).
    { intros Hs self html c Hr Hc.
      apply render_Ok_inv in Hr as (dom & cv & tr & Hdom & _ & _ & Hhtml).
      rewrite (domain_commands_domain _ _ _ domain Hs Hd) in Hdom.
      injection Hdom as <-.
      eapply render_contains; [exact Hhtml|].
      apply elem_of_app. left.
      apply elem_of_cons in Hc as [->|Hc]; [by left|].
      apply elem_of_cons in Hc as [->|Hc%elem_of_nil]; [|done].
      right. by left. }
    split; [|split; [|split]].
    + intros H. rewrite (domain_commands_domain _ _ _ domain); [|by rewrite H|done].
      by rewrite H.
    + intros H. rewrite (domain_commands_domain _ _ _ domain); [|by rewrite H|done].
      by rewrite H.
    + intros [H|[H|H%elem_of_nil]%elem_of_cons]%elem_of_cons; [|done..].
      unfold ALLOW_LINKER_CODE, DOMAIN_CODE in H. simpl in H. done.
    + intros Hs self html Hr.
      split; apply (Hout Hs self html _ Hr).
      * by left.
      * right. by left.
  - intros H Hd self. rewrite render_steps.
    destruct (domain_commands_no_domain get_domain _ _ H Hd) as [msg ->].
    by exists msg.
Qed.

(** C4, amended.  When every custom-variable tuple has a name and a value,
    the custom-variable step emits exactly one command for each of the slots
    1 to 5 that holds a value, in ascending slot order; the command carries
    the number of its slot, the name and the value of the tuple, and its
    third element as the scope, [SCOPE_PAGE] (3) when it has none.  A slot
    without a value emits nothing and leaves the numbers of the others as
    they are. *)
Theorem C4_custom_var_commands (context : Context) :
  custom_vars_indexable context →
  _get_custom_var_commands context =
  Ok (omap (λ i, slot_command i <$> google_analytics_var context i)
        [1; 2; 3; 4; 5]) ∧
  (∀ i name value,
     slot_command i [name; value] = setCustomVar i name value (PyInt 3)) ∧
  (∀ i name value scope rest,
     slot_command i (name :: value :: scope :: rest)
     = setCustomVar i name value scope).
Proof.
  intros H. split; [by apply custom_var_commands_ok|]. by split.
Qed.

(** C5.  With a non-empty transaction that has its required keys, and line
    items that have theirs, the transaction step emits the [_addTrans]
    command, absent optional fields as empty strings, then one [_addItem]
    command per line item in list order, absent optional fields as empty
    strings, then the currency-code [_set] command if the currency code in
    force is true, then [_trackTrans]. *)
Theorem C5_transaction_commands settings context (t : pydict) :
  google_analytics_transaction context = Some t → t ≠ ∅ →
  valid_transaction t = true →
  forallb valid_item (items_of context) = true →
  _get_transaction_commands settings context =
  Ok ([addTrans t] ++ map addItem (items_of context)
      ++ (if py_truth (currency_of settings context)
          then [set_currencyCode (currency_of settings context)] else [])
      ++ [TRACK_TRANSACTION_CODE]) ∧
  (∀ k, t !! k = None → field t k = "") ∧
  (∀ item k, item !! k = None → field item k = "").
Proof.
  intros Ht Hne Hv Hi. split; [by apply transaction_commands_valid|].
  split; intros; unfold field; by simplify_option_eq.
Qed.

(** C6, amended.  The output of a render that raises nothing is the
    snippet: the account-set command, the pageview-track command, the
    commands of the steps joined by spaces in the order domain,
    custom-variable, site-speed and anonymize-IP, transaction, then the
    loader with the display-advertising pair of sources when the advertising
    flag is set and the default pair otherwise, the whole wrapped in a
    comment for an internal IP. *)
Theorem C6_snippet (self : node) settings context (html : string) :
  render get_domain is_internal_ip self settings context = Ok html →
  ∃ dom cv tr,
    _get_domain_commands get_domain settings context = Ok dom ∧
    _get_custom_var_commands context = Ok cv ∧
    _get_transaction_commands settings context = Ok tr ∧
    html = wrap is_internal_ip settings context
             (snippet_head (property_id self)
              +:+ join " " (dom ++ cv ++ _get_other_commands settings context
                            ++ tr)
              +:+ snippet_tail (source_of settings)) ∧
    source_of settings =
      (if py_truth (getattr settings "GOOGLE_ANALYTICS_DISPLAY_ADVERTISING"
                            (PyBool false))
       then DISPLAY_ADVERTISING_SOURCE else DEFAULT_SOURCE).
Proof.
  intros (dom & cv & tr & ? & ? & ? & ?)%render_Ok_inv.
  exists dom, cv, tr. by rewrite source_of_getattr.
Qed.


(** C8.  When the transaction is absent or an empty dict, the transaction
    step emits nothing and raises nothing, whatever the line items and the
    currency code are; render assembles the commands of the other steps
    only. *)
Theorem C8_falsy_transaction (self : node) settings context :
  google_analytics_transaction context = None ∨
  google_analytics_transaction context = Some ∅ →
  (∀ items code,
     _get_transaction_commands settings
       {| google_analytics_var := google_analytics_var context;
          google_analytics_transaction := google_analytics_transaction context;
          google_analytics_items := items;
          google_analytics_currency_code := code |} = Ok []) ∧
  _get_transaction_commands settings context = Ok [] ∧
  render get_domain is_internal_ip self settings context =
  dom ← _get_domain_commands get_domain settings context;
  cv ← _get_custom_var_commands context;
  Ok (wrap is_internal_ip settings context
        (snippet (property_id self)
           (join " " (dom ++ cv ++ _get_other_commands settings context))
           (source_of settings))).
Proof.
  intros H. split; [|split].
  - intros items code. by apply transaction_commands_falsy.
  - by apply transaction_commands_falsy.
  - rewrite render_steps, (transaction_commands_falsy _ _ H).
    destruct (_get_domain_commands get_domain settings context); [|done].
    destruct (_get_custom_var_commands context); [|done].
    cbn [mbind result_bind]. by rewrite app_nil_r.
Qed.

(** C9.  With a valid transaction, the currency code in force is the
    context's whenever the context binds one, the configured one otherwise;
    among the commands of the transaction step, the [_set] commands are the
    currency-code command alone when that code is true, and none when it is
    not (as for the empty string). *)
Theorem C9_currency_code settings context (t : pydict) :
  google_analytics_transaction context = Some t → t ≠ ∅ →
  valid_transaction t = true →
  forallb valid_item (items_of context) = true →
  ∃ cmds,
    _get_transaction_commands settings context = Ok cmds ∧
    List.filter is_set_command cmds =
      (if py_truth (currency_of settings context)
       then [set_currencyCode (currency_of settings context)] else []) ∧
    (∀ v, google_analytics_currency_code context = Some v →
          currency_of settings context = v) ∧
    (google_analytics_currency_code context = None →
     currency_of settings context =
     getattr settings "GOOGLE_ANALYTICS_ECOMMERCE_CURRENCY_CODE" PyNone) ∧
    py_truth (PyStr "") = false.
Proof.
  intros Ht Hne Hv Hi. eexists. split; [by apply transaction_commands_valid|].
  split; [|split; [|split]].
  - rewrite !List.filter_app.
    rewrite filter_addItem. apply filter_transaction_commands.
  - intros v Hc. unfold currency_of. by rewrite Hc.
  - intros Hc. unfold currency_of, getattr. rewrite Hc.
    by destruct (settings !! _).
  - reflexivity.
Qed.

(** C10.  A custom-variable tuple with fewer than two elements in one of
    the slots 1 to 5 makes the custom-variable step raise an [IndexError],
    which is no ConfigurationError, and render raises it whenever the domain
    step returns; only the lookup of the scope is guarded, a tuple of two
    elements giving [SCOPE_PAGE]. *)
Theorem C10_short_custom_var (self : node) settings context (i : Z)
    (v : list pyval) :
  i ∈ [1; 2; 3; 4; 5] → google_analytics_var context i = Some v →
  (length v < 2)%nat →
  _get_custom_var_commands context = Raise IndexError ∧
  is_ConfigurationError IndexError = false ∧
  (∀ dom, _get_domain_commands get_domain settings context = Ok dom →
          render get_domain is_internal_ip self settings context
          = Raise IndexError) ∧
  (∀ index name value,
     custom_var_command index [name; value]
     = Ok (setCustomVar index name value (PyInt SCOPE_PAGE))).
Proof.
  intros Hi Hv Hlen.
  pose proof (custom_var_commands_short _ _ _ Hi Hv Hlen) as Hcv.
  split; [done|]. split; [done|]. split.
  - intros dom Hdom. by rewrite render_steps, Hdom, Hcv.
  - intros index name value.
    by rewrite custom_var_command_ok by (cbn; lia).
Qed.

End Claims.

(** ** At sample inputs *)

Lemma sample_indexable (context : Context) :
  (∀ i, google_analytics_var context i = None) →
  custom_vars_indexable context.
Proof. intros H i v _. by rewrite H. Qed.

Lemma C2_witness :
  ∃ msg, render no_domain external_ip sample_node sample_settings
           incomplete_transaction_context
         = Raise (AnalyticalException msg).
Proof.
  destruct (C2_transaction_errors no_domain external_ip sample_node
              sample_settings incomplete_transaction_context
              {[ "transactionId" := PyStr "1234" ]}) as (H & _).
  - reflexivity.
  - apply map_non_empty_singleton.
  - by apply sample_indexable.
  - apply H. reflexivity.
Defined.

(** C2 as the spec states it fails on an empty transaction: it is present,
    it lacks [transactionId] and [total], the line item beside it lacks all
    its keys, and render returns. *)
Lemma C2_counterexample :
  google_analytics_transaction empty_transaction_context = Some ∅ ∧
  valid_transaction ∅ = false ∧
  forallb valid_item (items_of empty_transaction_context) = false ∧
  ∃ html, render no_domain external_ip sample_node sample_settings
            empty_transaction_context = Ok html.
Proof. repeat split. eexists. vm_compute. reflexivity. Qed.

Lemma C3_witness :
  _get_domain_commands example_com multiple_domains_settings empty_context
  = Ok ["_gaq.push(['_setDomainName', 'example.com']);";
        "_gaq.push(['_setAllowHash', false]);";
        "_gaq.push(['_setAllowLinker', true]);"].
Proof.
  destruct (C3_domain_commands example_com external_ip
              multiple_domains_settings empty_context) as (_ & H & _).
  destruct (H "example.com" eq_refl) as (_ & H3 & _).
  apply H3. reflexivity.
Defined.

Lemma custom_vars_context_indexable : custom_vars_indexable custom_vars_context.
Proof.
  intros i v Hi. unfold custom_vars_context. cbn.
  repeat case_bool_decide; intros [= <-]; cbn; lia.
Qed.

Lemma C4_witness :
  _get_custom_var_commands custom_vars_context
  = Ok ["_gaq.push(['_setCustomVar', 1, 'test1', 'foo', 3]);";
        "_gaq.push(['_setCustomVar', 2, 'test2', 'bar', 1]);";
        "_gaq.push(['_setCustomVar', 4, 'test4', 'baz', 2]);";
        "_gaq.push(['_setCustomVar', 5, 'test5', 'qux', 3]);"].
Proof.
  destruct (C4_custom_var_commands custom_vars_context
              custom_vars_context_indexable) as [H _].
  rewrite H. reflexivity.
Defined.

(** C4 as the spec states it fails on a tuple without a value: slot 3 holds
    a value, and the step, and with it render, raises an [IndexError] and
    emits no command for the slot. *)
Lemma C4_counterexample :
  google_analytics_var short_var_context 3 = Some [PyStr "test3"] ∧
  _get_custom_var_commands short_var_context = Raise IndexError ∧
  render no_domain external_ip sample_node sample_settings short_var_context
  = Raise IndexError.
Proof. repeat split. Qed.

Lemma sample_transaction_non_empty : sample_transaction ≠ ∅.
Proof. apply insert_non_empty. Qed.

Lemma C5_witness :
  _get_transaction_commands sample_settings transaction_context
  = Ok ["_gaq.push(['_addTrans', '1234', '', '12.50', '', '', 'Jersey City', '', '']);";
        "_gaq.push(['_addItem', '', 'THNG001', 'thing', '', '50.00', '1']);";
        "_gaq.push(['_set', 'currencyCode', 'EUR']);";
        "_gaq.push(['_trackTrans']);"].
Proof.
  destruct (C5_transaction_commands sample_settings transaction_context
              sample_transaction eq_refl sample_transaction_non_empty
              eq_refl eq_refl) as [H _].
  rewrite H. reflexivity.
Defined.

Lemma C6_witness :
  ∃ dom cv tr,
    _get_domain_commands example_com full_settings full_context = Ok dom ∧
    _get_custom_var_commands full_context = Ok cv ∧
    _get_transaction_commands full_settings full_context = Ok tr ∧
    snippet "UA-123456-7"
      "_gaq.push(['_setDomainName', 'example.com']); _gaq.push(['_setAllowHash', false]); _gaq.push(['_setAllowLinker', true]); _gaq.push(['_setCustomVar', 2, 'test2', 'bar', 1]); _gaq.push(['_setCustomVar', 4, 'test4', 'baz', 3]); _gaq.push(['_trackPageLoadTime']); _gaq.push (['_gat._anonymizeIp']); _gaq.push(['_addTrans', '1234', '', '12.50', '', '', 'Jersey City', '', '']); _gaq.push(['_addItem', '', 'THNG001', 'thing', '', '50.00', '1']); _gaq.push(['_set', 'currencyCode', 'EUR']); _gaq.push(['_trackTrans']);"
      ("'https://' : 'http://'", "'stats.g.doubleclick.net/dc.js'")
    = wrap external_ip full_settings full_context
        (snippet_head (property_id sample_node)
         +:+ join " " (dom ++ cv
                       ++ _get_other_commands full_settings full_context
                       ++ tr)
         +:+ snippet_tail (source_of full_settings)) ∧
    source_of full_settings =
      (if py_truth (getattr full_settings
                      "GOOGLE_ANALYTICS_DISPLAY_ADVERTISING" (PyBool false))
       then DISPLAY_ADVERTISING_SOURCE else DEFAULT_SOURCE).
Proof.
  apply (C6_snippet example_com external_ip sample_node full_settings
           full_context).
  vm_compute. reflexivity.
Defined.

(** C6 as the spec states it fails where both a transaction and the
    site-speed flag are present: the output of render does not contain the
    commands joined in the order domain, custom variables, transaction,
    other. *)
Lemma C6_counterexample :
  ∃ html dom cv tr,
    render no_domain external_ip sample_node site_speed_settings
      transaction_context = Ok html ∧
    _get_domain_commands no_domain site_speed_settings transaction_context
    = Ok dom ∧
    _get_custom_var_commands transaction_context = Ok cv ∧
    _get_transaction_commands site_speed_settings transaction_context = Ok tr ∧
    ¬ contains
        (join " "
           (spec_order_commands dom cv tr
              (_get_other_commands site_speed_settings transaction_context)))
        html.
Proof.
  do 4 eexists. split; [vm_compute; reflexivity|].
  split; [vm_compute; reflexivity|]. split; [vm_compute; reflexivity|].
  split; [vm_compute; reflexivity|].
  intros H%is_substring_spec. vm_compute in H. discriminate H.
Qed.


Lemma C8_witness :
  _get_transaction_commands sample_settings empty_transaction_context = Ok [].
Proof.
  destruct (C8_falsy_transaction no_domain external_ip sample_node
              sample_settings empty_transaction_context) as (_ & H & _).
  - right. reflexivity.
  - exact H.
Defined.

Lemma C9_witness :
  ∃ cmds,
    _get_transaction_commands sample_settings transaction_context = Ok cmds ∧
    List.filter is_set_command cmds =
      (if py_truth (currency_of sample_settings transaction_context)
       then [set_currencyCode (currency_of sample_settings transaction_context)]
       else []) ∧
    (∀ v, google_analytics_currency_code transaction_context = Some v →
          currency_of sample_settings transaction_context = v) ∧
    (google_analytics_currency_code transaction_context = None →
     currency_of sample_settings transaction_context =
     getattr sample_settings "GOOGLE_ANALYTICS_ECOMMERCE_CURRENCY_CODE" PyNone) ∧
    py_truth (PyStr "") = false.
Proof.
  apply (C9_currency_code sample_settings transaction_context
           sample_transaction eq_refl sample_transaction_non_empty
           eq_refl eq_refl).
Defined.

Lemma C10_witness :
  render no_domain external_ip sample_node sample_settings short_var_context
  = Raise IndexError.
Proof.
  destruct (C10_short_custom_var no_domain external_ip sample_node
              sample_settings short_var_context 3 [PyStr "test3"])
    as (_ & _ & H & _).
  - set_solver.
  - reflexivity.
  - cbn. lia.
  - apply (H []). reflexivity.
Defined.

(** * Further properties of the code *)

(** ** [enumerate] *)

(** X1.  [enumerate] keeps the length of the sequence, and pairs the element
    at position [k] with [start + k]. *)
Theorem enumerate_lookup {A} (sequence : list A) (start : Z) (k : nat) :
  length (enumerate sequence start) = length sequence ∧
  enumerate sequence start !! k
  = (λ elem, (start + Z.of_nat k, elem)) <$> sequence !! k.
Proof.
  revert start k. induction sequence as [|x l IH]; intros start k; [done|].
  split.
  - cbn [enumerate length]. f_equal. apply (IH (start + 1) 0%nat).
  - destruct k as [|k].
    + cbn. do 2 f_equal. lia.
    + change (enumerate (x :: l) start !! S k)
        with (enumerate l (start + 1) !! k).
      change ((x :: l) !! S k) with (l !! k).
      destruct (IH (start + 1) k) as [_ ->].
      destruct (l !! k); [|done]. cbn. do 2 f_equal. lia.
Qed.

(** ** [PROPERTY_ID_RE] *)

(** X2.  [PROPERTY_ID_RE.search] accepts exactly the strings
    [UA-<digits>-<digits>] and those strings followed by one newline; the
    pattern is anchored at both ends, up to that newline. *)
Theorem PROPERTY_ID_RE_accepts (s : string) :
  re_search PROPERTY_ID_RE s = true ↔
  is_property_id s ∨ ∃ s0, is_property_id s0 ∧ s = s0 +:+ NL.
Proof.
  rewrite PROPERTY_ID_RE_search. split.
  - intros (a & b & Ha & Hb & [Hs|Hs]).
    + left. by exists a, b.
    + right. exists ("UA-" +:+ a +:+ "-" +:+ b). split; [by exists a, b|].
      rewrite Hs. simpl. by rewrite !string_app_assoc.
  - intros [(a & b & Ha & Hb & Hs) | (s0 & (a & b & Ha & Hb & Hs) & ->)].
    + exists a, b. auto.
    + exists a, b. split; [done|]. split; [done|]. right.
      rewrite Hs. simpl. by rewrite !string_app_assoc.
Qed.

(** ** The steps and their errors *)

(** The custom-variable step raises nothing but an [IndexError]. *)
Lemma custom_var_commands_raise (context : Context) (e : exn) :
  _get_custom_var_commands context = Raise e → e = IndexError.
Proof.
  rewrite custom_var_vars.
  set (f := λ iv : Z * list pyval, custom_var_command iv.1 iv.2).
  destruct (mapM_cases f (omap (λ i, pair i <$> google_analytics_var context i)
                               [1; 2; 3; 4; 5]))
    as [(bs & -> & _) | (l1 & [j w] & l2 & e' & _ & _ & Hx & ->)]; [done|].
  intros [= <-]. unfold f in Hx. cbn in Hx.
  destruct (decide (length w < 2)%nat) as [Hw|Hw].
  - rewrite custom_var_command_short in Hx; [|done]. congruence.
  - rewrite custom_var_command_ok in Hx; [done|lia].
Qed.

(** The transaction step raises nothing but a ConfigurationError. *)
Lemma transaction_commands_raise settings (context : Context) (e : exn) :
  _get_transaction_commands settings context = Raise e →
  ∃ msg, e = AnalyticalException msg.
Proof.
  destruct (google_analytics_transaction context) as [t|] eqn:Ht.
  2:{ rewrite transaction_commands_falsy; [done|by left]. }
  destruct (decide (t = ∅)) as [->|Hne].
  { rewrite transaction_commands_falsy; [done|by right]. }
  destruct (valid_transaction t) eqn:Hv.
  - destruct (forallb valid_item (items_of context)) eqn:Hi.
    + by rewrite (transaction_commands_valid _ _ _ Ht Hne Hv Hi).
    + destruct (transaction_commands_item_invalid settings _ _ Ht Hne Hv Hi)
        as [msg ->].
      intros [= <-]. by exists msg.
  - destruct (transaction_commands_invalid settings _ _ Ht Hne Hv) as [msg ->].
    intros [= <-]. by exists msg.
Qed.

Section Further.

Variable get_domain : Settings → Context → string → option string.
Variable is_internal_ip : Settings → Context → string → bool.

(** X3.  Only the value 1 (and [True], which equals it) is the single-domain
    mode.  Every other integer mode, 2 and 3 or not, needs a domain name:
    without one the domain step raises a ConfigurationError, with one it
    emits the set-domain and disable-hash commands, and the allow-linker
    command for the mode 3 alone. *)
Theorem tracking_style_values settings context :
  (tracking_style settings = PyBool true →
   _get_domain_commands get_domain settings context = Ok []) ∧
  (∀ n, tracking_style settings = PyInt n → n ≠ TRACK_SINGLE_DOMAIN →
     (get_domain settings context "google_analytics" = None →
      ∃ msg, _get_domain_commands get_domain settings context
             = Raise (AnalyticalException msg)) ∧
     (∀ domain, get_domain settings context "google_analytics" = Some domain →
        (n = TRACK_MULTIPLE_DOMAINS →
         _get_domain_commands get_domain settings context
         = Ok [DOMAIN_CODE domain; NO_ALLOW_HASH_CODE; ALLOW_LINKER_CODE]) ∧
        (n ≠ TRACK_MULTIPLE_DOMAINS →
         _get_domain_commands get_domain settings context
         = Ok [DOMAIN_CODE domain; NO_ALLOW_HASH_CODE]))).
Proof.
  split.
  - intros H. apply domain_commands_single. by rewrite H.
  - intros n Hn Hne.
    assert (Hs : py_eq (tracking_style settings) (PyInt TRACK_SINGLE_DOMAIN)
                 = false).
    { rewrite Hn. cbn. by apply Z.eqb_neq. }
    split; [by apply domain_commands_no_domain|].
    intros domain Hd.
    rewrite (domain_commands_domain _ _ _ domain Hs Hd), Hn. cbn [py_eq py_num].
    split.
    + intros ->. done.
    + intros H3. apply Z.eqb_neq in H3. by rewrite H3.
Qed.

(** X4.  [render] returns exactly when its three fallible steps return.
    Otherwise it raises what the first failing step raises, in the order
    domain, custom variables, transaction; this is always an
    [AnalyticalException] or an [IndexError], never a [KeyError] from a
    template: the keys every template reads are bound when it is filled. *)
Theorem render_errors (self : node) settings context :
  ((∃ html, render get_domain is_internal_ip self settings context = Ok html) ↔
   (∃ dom, _get_domain_commands get_domain settings context = Ok dom) ∧
   (∃ cv, _get_custom_var_commands context = Ok cv) ∧
   (∃ tr, _get_transaction_commands settings context = Ok tr)) ∧
  (∀ e, render get_domain is_internal_ip self settings context = Raise e →
     _get_domain_commands get_domain settings context = Raise e ∨
     ((∃ dom, _get_domain_commands get_domain settings context = Ok dom) ∧
      _get_custom_var_commands context = Raise e) ∨
     ((∃ dom, _get_domain_commands get_domain settings context = Ok dom) ∧
      (∃ cv, _get_custom_var_commands context = Ok cv) ∧
      _get_transaction_commands settings context = Raise e)) ∧
  (∀ e, render get_domain is_internal_ip self settings context = Raise e →
     (∃ msg, e = AnalyticalException msg) ∨ e = IndexError).
Proof.
  rewrite render_steps.
  destruct (_get_domain_commands get_domain settings context)
    as [dom|e1] eqn:Hd; cbn [mbind result_bind].
  2:{ split; [|split].
      - split; [by intros [? ?]|by intros ([? ?] & _)].
      - intros e [= <-]. by left.
      - intros e [= <-]. left. by apply (domain_commands_raise _ _ _ _ Hd). }
  destruct (_get_custom_var_commands context) as [cv|e2] eqn:Hc;
    cbn [mbind result_bind].
  2:{ split; [|split].
      - split; [by intros [? ?]|by intros (_ & [? ?] & _)].
      - intros e [= <-]. right. left. eauto.
      - intros e [= <-]. right. by apply (custom_var_commands_raise _ _ Hc). }
  destruct (_get_transaction_commands settings context) as [tr|e3] eqn:Ht;
    cbn [mbind result_bind].
  - split; [|split]; [|done|done].
    split; intros _; [repeat split; by eexists | by eexists].
  - split; [|split].
    + split; [by intros [? ?]|by intros (_ & _ & [? ?])].
    + intros e [= <-]. right. right. eauto.
    + intros e [= <-]. left. by apply (transaction_commands_raise _ _ _ Ht).
Qed.

End Further.

(** ** Custom variables *)

Lemma mapM_length {A B} (f : A → result B) (l : list A) (bs : list B) :
  mapM f l = Ok bs → length bs = length l.
Proof.
  destruct (mapM_cases f l) as [(bs' & -> & HF) | (? & ? & ? & ? & _ & _ & _ & ->)];
    [|done].
  intros [= <-]. symmetry. by eapply Forall2_length.
Qed.

(** X5.  The custom-variable step reads the slots 1 to 5 and no other: two
    contexts that agree on these slots give the same result, whatever they
    hold elsewhere, and no more than five commands are ever emitted. *)
Theorem custom_vars_slots_1_to_5 (context context' : Context) :
  (∀ i, 1 ≤ i ≤ 5 →
        google_analytics_var context i = google_analytics_var context' i) →
  _get_custom_var_commands context = _get_custom_var_commands context' ∧
  (∀ cmds, _get_custom_var_commands context = Ok cmds →
           (length cmds ≤ 5)%nat).
Proof.
  intros H. split.
  - rewrite !custom_var_vars. cbn [omap list_omap].
    by rewrite (H 1), (H 2), (H 3), (H 4), (H 5) by lia.
  - intros cmds Hc. rewrite custom_var_vars in Hc.
    apply mapM_length in Hc. rewrite Hc. cbn [omap list_omap].
    destruct (google_analytics_var context 1),
      (google_analytics_var context 2), (google_analytics_var context 3),
      (google_analytics_var context 4), (google_analytics_var context 5);
      cbn; lia.
Qed.

(** ** Transaction errors *)

Lemma check_item_first_missing (item : pydict) (required : string) :
  first_missing item = Some required →
  check_item item
  = Raise (AnalyticalException ("item requires " +:+ required +:+ " variable")).
Proof.
  unfold first_missing, check_item. cbn [List.find mapM].
  destruct (py_in "sku" item), (py_in "name" item), (py_in "price" item),
    (py_in "quantity" item); cbn; intros [= <-]; reflexivity.
Qed.

(** X6.  The messages of the transaction step.  A non-empty transaction
    without [transactionId] or [total] raises the message about the
    transaction, whatever the line items are.  With a complete transaction,
    the first incomplete line item decides: the message names the first of
    [sku], [name], [price], [quantity] that this item lacks; later items are
    not looked at. *)
Theorem transaction_error_messages settings context (t : pydict) :
  google_analytics_transaction context = Some t → t ≠ ∅ →
  (valid_transaction t = false →
   _get_transaction_commands settings context
   = Raise (AnalyticalException
              "transaction tracking requires a total and a transactionId")) ∧
  (valid_transaction t = true →
   ∀ complete item rest required,
     items_of context = complete ++ item :: rest →
     forallb valid_item complete = true →
     first_missing item = Some required →
     _get_transaction_commands settings context
     = Raise (AnalyticalException
                ("item requires " +:+ required +:+ " variable"))).
Proof.
  intros Ht Hne. split.
  - intros Hv. unfold _get_transaction_commands. rewrite Ht.
    rewrite (dict_truth_true _ Hne). cbn [negb].
    unfold valid_transaction in Hv.
    by destruct (py_in "transactionId" t), (py_in "total" t).
  - intros Hv complete item rest required Hitems Hc Hm.
    unfold _get_transaction_commands. rewrite Ht.
    rewrite (dict_truth_true _ Hne). cbn [negb].
    pose proof Hv as [-> ->]%andb_true_iff. cbn [negb orb].
    rewrite (format_TRANSACTION_CODE _ Hv). cbn [mbind result_bind].
    unfold items_of in Hitems. rewrite Hitems.
    rewrite (mapM_Raise item_command complete rest item
               (AnalyticalException
                  ("item requires " +:+ required +:+ " variable"))); [done| |].
    + apply Forall_forall. intros y Hy. exists (addItem y).
      apply item_command_valid. rewrite forallb_forall in Hc. apply Hc.
      by apply list_elem_of_In.
    + unfold item_command. by rewrite (check_item_first_missing _ _ Hm).
Qed.

(** ** Site speed and anonymize IP *)

(** X7.  The step of the other commands emits the site-speed command exactly
    when [GOOGLE_ANALYTICS_SITE_SPEED] is true, the anonymize-IP command
    exactly when [GOOGLE_ANALYTICS_ANONYMIZE_IP] is true, and nothing else;
    both flags are false when unset, and the context plays no part. *)
Theorem other_commands_flags settings (context : Context) :
  (SITE_SPEED_CODE ∈ _get_other_commands settings context ↔
   py_truth (getattr settings "GOOGLE_ANALYTICS_SITE_SPEED" (PyBool false))
   = true) ∧
  (ANONYMIZE_IP_CODE ∈ _get_other_commands settings context ↔
   py_truth (getattr settings "GOOGLE_ANALYTICS_ANONYMIZE_IP" (PyBool false))
   = true) ∧
  (∀ c, c ∈ _get_other_commands settings context →
        c = SITE_SPEED_CODE ∨ c = ANONYMIZE_IP_CODE) ∧
  (settings !! "GOOGLE_ANALYTICS_SITE_SPEED" = None →
   settings !! "GOOGLE_ANALYTICS_ANONYMIZE_IP" = None →
   _get_other_commands settings context = []) ∧
  (∀ context', _get_other_commands settings context'
               = _get_other_commands settings context).
Proof.
  unfold _get_other_commands.
  split; [|split; [|split; [|split]]].
  - destruct (py_truth (getattr settings "GOOGLE_ANALYTICS_SITE_SPEED" _)),
      (py_truth (getattr settings "GOOGLE_ANALYTICS_ANONYMIZE_IP" _));
      cbn [app]; rewrite ?elem_of_cons, ?elem_of_nil;
      intuition (try discriminate; auto).
  - destruct (py_truth (getattr settings "GOOGLE_ANALYTICS_SITE_SPEED" _)),
      (py_truth (getattr settings "GOOGLE_ANALYTICS_ANONYMIZE_IP" _));
      cbn [app]; rewrite ?elem_of_cons, ?elem_of_nil;
      intuition (try discriminate; auto).
  - intros c.
    destruct (py_truth (getattr settings "GOOGLE_ANALYTICS_SITE_SPEED" _)),
      (py_truth (getattr settings "GOOGLE_ANALYTICS_ANONYMIZE_IP" _));
      cbn [app]; rewrite ?elem_of_cons, ?elem_of_nil;
      intuition (try discriminate; auto).
  - unfold getattr. by intros -> ->.
  - done.
Qed.

(** ** What the output contains *)

Lemma contains_here (sub post : string) : contains sub (sub +:+ post).
Proof. by exists "", post. Qed.

Lemma contains_skip (sub pre s : string) :
  contains sub s → contains sub (pre +:+ s).
Proof.
  intros (a & b & ->). exists (pre +:+ a), b. by rewrite string_app_assoc.
Qed.

Lemma snippet_contains_account (pid commands : string) source :
  contains (setAccount pid) (snippet pid commands source) ∧
  contains trackPageview (snippet pid commands source) ∧
  contains source.1 (snippet pid commands source) ∧
  contains source.2 (snippet pid commands source).
Proof.
  unfold snippet, snippet_head, snippet_tail, loader.
  rewrite !string_app_assoc. repeat split.
  - do 5 apply contains_skip. apply contains_here.
  - do 7 apply contains_skip. apply contains_here.
  - do 12 apply contains_skip. apply contains_here.
  - do 14 apply contains_skip. apply contains_here.
Qed.

Section Output.

Variable get_domain : Settings → Context → string → option string.
Variable is_internal_ip : Settings → Context → string → bool.

(** X8.  Whatever [render] returns contains, verbatim, the account command
    with the property id of the node, the pageview command, both parts of the
    source pair in force, and every command that any of the four steps
    emitted; this holds for the live snippet and for the one disabled for an
    internal IP alike. *)
Theorem render_output_contains (self : node) settings context (html : string) :
  render get_domain is_internal_ip self settings context = Ok html →
  contains ("_gaq.push(['_setAccount', '" +:+ property_id self +:+ "']);") html ∧
  contains "_gaq.push(['_trackPageview']);" html ∧
  contains (source_of settings).1 html ∧
  contains (source_of settings).2 html ∧
  (∀ dom cv tr c,
     _get_domain_commands get_domain settings context = Ok dom →
     _get_custom_var_commands context = Ok cv →
     _get_transaction_commands settings context = Ok tr →
     c ∈ dom ++ cv ++ _get_other_commands settings context ++ tr →
     contains c html).
Proof.
  intros (dom & cv & tr & Hd & Hc & Ht & ->)%render_Ok_inv.
  destruct (snippet_contains_account (property_id self)
              (join " " (dom ++ cv ++ _get_other_commands settings context
                         ++ tr))
              (source_of settings)) as (H1 & H2 & H3 & H4).
  repeat split; try by apply contains_wrap.
  intros dom' cv' tr' c Hd' Hc' Ht' Hin.
  rewrite Hd in Hd'. rewrite Hc in Hc'. rewrite Ht in Ht'.
  injection Hd' as <-. injection Hc' as <-. injection Ht' as <-.
  by eapply render_contains.
Qed.

End Output.

(** ** The tag function and the registration hook *)

(** X9.  The tag takes no arguments: it raises a [TemplateSyntaxError]
    exactly when the token has more than one bit, naming the first bit, and
    it does so whatever the settings are; with at most one bit it returns or
    raises what the constructor of the node does. *)
Theorem google_analytics_no_arguments settings (bits : list string) :
  ((∃ msg, google_analytics settings bits = TagRaise (TemplateSyntaxError msg))
   ↔ (1 < length bits)%nat) ∧
  (∀ name args,
     google_analytics settings (name :: args) =
     match args with
     | [] =>
         match __init__ settings with
         | Ok n => TagOk n
         | Raise e => TagRaise (NodeError e)
         end
     | _ :: _ =>
         TagRaise (TemplateSyntaxError ("'" +:+ name +:+ "' takes no arguments"))
     end).
Proof.
  split.
  - unfold google_analytics.
    destruct bits as [|name [|arg args]]; cbn [length Nat.ltb Nat.leb].
    + split; [|lia]. intros [msg H]. by destruct (__init__ settings).
    + split; [|lia]. intros [msg H]. by destruct (__init__ settings).
    + split; [intros _; lia|]. intros _. by eexists.
  - intros name [|arg args]; reflexivity.
Qed.

(** X10.  The registration hook registers the node class once, for the
    position [head_bottom], and only with settings under which the node can
    be constructed: when it returns, the tag without arguments returns a node
    under the same settings; when the constructor raises, the hook raises the
    same error and nothing is registered. *)
Theorem contribute_to_analytical_configured {R : Type} settings
    (add_node : string → (Settings → result node) → R → R) (registry : R) :
  (∀ registry',
     contribute_to_analytical settings add_node registry = Ok registry' →
     registry' = add_node "head_bottom" __init__ registry ∧
     ∀ name, ∃ n, google_analytics settings [name] = TagOk n) ∧
  (∀ e, __init__ settings = Raise e →
        contribute_to_analytical settings add_node registry = Raise e).
Proof.
  unfold contribute_to_analytical, google_analytics. cbn [length Nat.ltb Nat.leb].
  destruct (__init__ settings) as [n|e]; cbn [mbind result_bind].
  - split; [|done]. intros registry' [= <-]. split; [done|].
    intros name. by exists n.
  - split; [done|]. by intros e' [= <-].
Qed.

(** ** At sample inputs *)

Lemma tracking_style_values_witness :
  _get_domain_commands example_com
    (<[ "GOOGLE_ANALYTICS_TRACKING_STYLE" := PyInt 7 ]> sample_settings)
    empty_context
  = Ok [DOMAIN_CODE "example.com"; NO_ALLOW_HASH_CODE].
Proof.
  destruct (tracking_style_values example_com
              (<[ "GOOGLE_ANALYTICS_TRACKING_STYLE" := PyInt 7 ]> sample_settings)
              empty_context) as [_ H].
  destruct (H 7 eq_refl ltac:(done)) as [_ H'].
  destruct (H' "example.com" eq_refl) as [_ H7].
  apply H7. done.
Defined.

Lemma render_errors_witness :
  _get_domain_commands no_domain sample_settings short_var_context
  = Raise IndexError ∨
  ((∃ dom, _get_domain_commands no_domain sample_settings short_var_context
           = Ok dom) ∧
   _get_custom_var_commands short_var_context = Raise IndexError) ∨
  ((∃ dom, _get_domain_commands no_domain sample_settings short_var_context
           = Ok dom) ∧
   (∃ cv, _get_custom_var_commands short_var_context = Ok cv) ∧
   _get_transaction_commands sample_settings short_var_context
   = Raise IndexError).
Proof.
  destruct (render_errors no_domain external_ip sample_node sample_settings
              short_var_context) as (_ & H & _).
  apply (H IndexError). reflexivity.
Defined.

Lemma custom_vars_slots_1_to_5_witness :
  _get_custom_var_commands custom_vars_context
  = _get_custom_var_commands
      {| google_analytics_var := λ i,
           if bool_decide (i = 6) then Some []
           else google_analytics_var custom_vars_context i;
         google_analytics_transaction := None;
         google_analytics_items := None;
         google_analytics_currency_code := None |}.
Proof.
  apply custom_vars_slots_1_to_5.
  intros i Hi. cbn. by rewrite (bool_decide_eq_false_2 (i = 6)) by lia.
Defined.

Lemma transaction_error_messages_witness :
  _get_transaction_commands sample_settings incomplete_item_context
  = Raise (AnalyticalException "item requires price variable").
Proof.
  destruct (transaction_error_messages sample_settings incomplete_item_context
              sample_transaction eq_refl sample_transaction_non_empty)
    as [_ H].
  apply (H eq_refl [sample_item]
           {[ "sku" := PyStr "THNG002"; "name" := PyStr "other thing" ]} []
           "price"); reflexivity.
Defined.

Lemma other_commands_flags_witness :
  SITE_SPEED_CODE ∈ _get_other_commands site_speed_settings empty_context.
Proof.
  apply (other_commands_flags site_speed_settings empty_context).
  reflexivity.
Defined.

Lemma render_output_contains_witness :
  contains "_gaq.push(['_setAccount', 'UA-123456-7']);"
    (snippet "UA-123456-7" "" DEFAULT_SOURCE).
Proof.
  destruct (render_output_contains no_domain external_ip sample_node
              sample_settings empty_context
              (snippet "UA-123456-7" "" DEFAULT_SOURCE) eq_refl) as [H _].
  exact H.
Defined.

Lemma google_analytics_no_arguments_witness :
  ∃ msg, google_analytics sample_settings ["google_analytics"; "extra"]
         = TagRaise (TemplateSyntaxError msg).
Proof.
  apply (google_analytics_no_arguments sample_settings
           ["google_analytics"; "extra"]).
  cbn. lia.
Defined.

Lemma contribute_to_analytical_configured_witness :
  ["head_bottom"] = record_position "head_bottom" __init__ [] ∧
  ∀ name, ∃ n, google_analytics sample_settings [name] = TagOk n.
Proof.
  apply (contribute_to_analytical_configured sample_settings record_position []).
  reflexivity.
Defined.
